(** * Mushroom Farm Monitoring System: the dashboard script [a.py]

    A shallow embedding of the Streamlit script: the data loader
    [load_data] with its time-to-live cache, the date-range view
    [show_filtered_data], the two time-series panels and [main].

    The script is glue over pandas, plotly, matplotlib and Streamlit.  The
    part of a library call that the script fixes (which columns it reads,
    in which order it calls, what it does with an exception) is written
    out; the part that belongs to the library alone (what the remote feed
    holds, which strings parse as a date, whether a plotting call raises)
    is a variable of the section [Script]. *)

From stdpp Require Import base option list strings gmap sorting.
From Stdlib Require Import ZArith Lia.

Local Open Scope Z_scope.

(** ** Values and tables *)

(** A cell of a pandas table.  [NaN] is the missing value [read_csv] puts
    in an empty field, [NaT] the missing date-time.  A [Datetime] is a
    [datetime64[ns]] value: nanoseconds since the epoch.  A [Float64] is
    carried by its bit pattern; the script does no arithmetic on it. *)
Inductive cell :=
  | NaN
  | NaT
  | Int64 (z : Z)
  | Float64 (bits : Z)
  | Str (s : string)
  | Datetime (ns : Z).

#[global] Instance cell_eq_dec : EqDecision cell.
Proof. solve_decision. Defined.

(** [pd.isna] / [pd.notna]. *)
Definition isna (c : cell) : bool :=
  match c with
  | NaN | NaT => true
  | _ => false
  end.

Definition notna (c : cell) : bool := negb (isna c).

(** A [Series] is the list of its values in row order; a row of a
    [DataFrame] is the record of its cells by column name. *)
Abbreviation Series := (list cell).
Abbreviation Row := (gmap string cell).

Record DataFrame := { columns : list string; rows : list Row }.

(** [pd.DataFrame()]: no column, no row. *)
Definition empty_frame : DataFrame := {| columns := []; rows := [] |}.

(** [df.empty]: one of the two axes has length 0. *)
Definition empty (df : DataFrame) : bool :=
  bool_decide (columns df = []) || bool_decide (rows df = []).

(** [col in df.columns]. *)
Definition has_column (df : DataFrame) (col : string) : bool :=
  bool_decide (col ∈ columns df).

(** The value of a row in a column. *)
Definition at_col (col : string) (r : Row) : cell := default NaN (r !! col).

(** The values of a column, for a column that is there. *)
Definition column (df : DataFrame) (col : string) : Series :=
  map (at_col col) (rows df).

(** [df[col] = s]: the series is aligned with the rows of the frame it was
    computed from, so row [i] receives value [i]. *)
Definition setitem (df : DataFrame) (col : string) (s : Series) : DataFrame :=
  {| columns := if has_column df col then columns df else columns df ++ [col];
     rows := zip_with (λ r v, <[col := v]> r) (rows df) s |}.

(** [df.dropna(subset=[col])]: the rows whose value in [col] is missing go. *)
Definition dropna (df : DataFrame) (col : string) : DataFrame :=
  {| columns := columns df;
     rows := List.filter (λ r, notna (at_col col r)) (rows df) |}.

(** [df[mask]] for a boolean series [mask]: the rows at which it is true. *)
Definition bool_index (df : DataFrame) (mask : list bool) : DataFrame :=
  {| columns := columns df;
     rows := map fst (List.filter snd (zip (rows df) mask)) |}.

(** ** Dates *)

(** A [datetime.date] is its day number counted from the epoch, so that the
    order of dates is the order of integers. *)
Definition ns_per_day : Z := 86400 * 1000000000.

(** [Timestamp.date()]: the calendar day an instant falls in. *)
Definition date_of (ns : Z) : Z := ns `div` ns_per_day.

(** Whether a series can go through the [.dt] accessor. *)
Definition is_datetimelike (c : cell) : bool :=
  match c with
  | Datetime _ | NaT => true
  | _ => false
  end.

(** [s.dt.date], element by element; a [NaT] stays missing. *)
Definition date_of_cell (c : cell) : option Z :=
  match c with
  | Datetime ns => Some (date_of ns)
  | _ => None
  end.

(** [s.min()] and [s.max()] of a date-time series skip the missing values;
    the result is missing ([None], pandas' [NaT]) when nothing is left. *)
Definition series_min (s : Series) : option Z :=
  foldr (λ c acc, match c, acc with
                  | Datetime ns, Some m => Some (Z.min ns m)
                  | Datetime ns, None => Some ns
                  | _, _ => acc
                  end) None s.

Definition series_max (s : Series) : option Z :=
  foldr (λ c acc, match c, acc with
                  | Datetime ns, Some m => Some (Z.max ns m)
                  | Datetime ns, None => Some ns
                  | _, _ => acc
                  end) None s.

(** [d >= start_date] and [d <= end_date] on a series of dates; a
    comparison with a missing date is false. *)
Definition ge_date (start_date : Z) (d : option Z) : bool :=
  match d with
  | Some d => bool_decide (start_date ≤ d)
  | None => false
  end.

Definition le_date (end_date : Z) (d : option Z) : bool :=
  match d with
  | Some d => bool_decide (d ≤ end_date)
  | None => false
  end.

(** ** Counting and reshaping *)

(** [Series.value_counts()]: missing values are left out ([dropna=True]),
    every other value is counted in a table keyed by value, and the table
    is put in descending order of count. *)
Fixpoint incr (v : cell) (acc : list (cell * nat)) : list (cell * nat) :=
  match acc with
  | [] => [(v, 1%nat)]
  | (k, n) :: acc' =>
      if bool_decide (k = v) then (k, S n) :: acc' else (k, n) :: incr v acc'
  end.

Definition tally (s : Series) : list (cell * nat) :=
  fold_left (λ acc v, incr v acc) s [].

Fixpoint insert_desc (p : cell * nat) (l : list (cell * nat)) : list (cell * nat) :=
  match l with
  | [] => [p]
  | q :: l' =>
      if bool_decide (q.2 ≤ p.2)%nat then p :: q :: l' else q :: insert_desc p l'
  end.

Definition sort_desc (l : list (cell * nat)) : list (cell * nat) :=
  foldr insert_desc [] l.

Definition value_counts (s : Series) : list (cell * nat) :=
  sort_desc (tally (List.filter notna s)).

(** A row of the long form [melt] produces: time, name of the state
    column, value of the state. *)
Abbreviation long_row := (cell * string * cell)%type.

(** [df.melt(id_vars=['Timestamp'], value_vars=vars, ...)]: one block of
    rows per value column, in the order of [vars]. *)
Definition melt (df : DataFrame) (vars : list string) : list long_row :=
  flat_map (λ v, map (λ r, (at_col "Timestamp" r, v, at_col v r)) (rows df)) vars.

(** ** Exceptions, figures and what a run leaves behind *)

Inductive exn :=
  | KeyError (key : string)                  (* df[col] with col absent *)
  | KeyErrorNotInIndex (cols : list string)  (* df[[...]] with columns absent *)
  | AttributeError (msg : string)            (* .dt on a series that holds no dates *)
  | LibraryError (msg : string).             (* raised inside a library call *)

Inductive outcome (A : Type) :=
  | Return (a : A)
  | Raise (e : exn).
Arguments Return {A} a.
Arguments Raise {A} e.

Abbreviation line := (Series * Series * string)%type.

Inductive figure :=
  | BarFigure (data : list long_row)
  | PieFigure (values : list nat) (names : list cell)
  | LineFigure (title : string) (lines : list line).

(** Calls into pandas, plotly and matplotlib, recorded when they are made. *)
Inductive lib_call :=
  | PdReadCsv (url : string)
  | PxBar (data : list long_row)
  | PxPie (values : list nat) (names : list cell)
  | UpdateLayout (fig : figure)
  | UpdateTraces (fig : figure)
  | PltFigure
  | PltPlot (x y : Series) (label : string)
  | PltDecorate (title : string).

(** Elements on the page, recorded when they are shown. *)
Inductive st_elem :=
  | StSubheader (body : string)
  | StError (body : string)
  | StWarning (body : string)
  | StDateInput (label : string) (value : Z) (key : string)
  | StWrite (df : DataFrame)
  | StPlotlyChart (fig : figure)
  | StPyplot (fig : figure).

Inductive event :=
  | Lib (c : lib_call)
  | St (e : st_elem).

(** The entry [st.cache_data] keeps for a function without arguments: the
    value, the page elements the function showed (they are replayed when
    the entry is served) and the time the entry was stored. *)
Record cache_entry :=
  { stored_at : Z; cached_value : DataFrame; cached_elements : list st_elem }.

(** What a script run reads and writes: the clock (seconds), Streamlit's
    [session_state] (the two dates the script keeps and the values of the
    two keyed widgets), the cache of [load_data] and the trace of the run. *)
Record world :=
  { now : Z;
    session_state : gmap string Z;
    cache : option cache_entry;
    log : list event }.

Definition set_session (f : gmap string Z → gmap string Z) (w : world) : world :=
  {| now := now w; session_state := f (session_state w);
     cache := cache w; log := log w |}.

Definition set_cache (c : option cache_entry) (w : world) : world :=
  {| now := now w; session_state := session_state w; cache := c; log := log w |}.

Definition set_log (l : list event) (w : world) : world :=
  {| now := now w; session_state := session_state w; cache := cache w; log := l |}.

Definition set_now (t : Z) (w : world) : world :=
  {| now := t; session_state := session_state w; cache := cache w; log := log w |}.

Definition add_log (l : list event) (w : world) : world :=
  set_log (log w ++ l) w.

(** ** The monad of script code: state and exceptions *)

Record M (A : Type) := MkM { run : world → outcome A * world }.
Arguments MkM {A} run.
Arguments run {A} m w.

#[global] Instance M_ret : MRet M := λ A a, MkM (λ w, (Return a, w)).

#[global] Instance M_bind : MBind M := λ A B f m,
  MkM (λ w, match run m w with
            | (Return a, w') => run (f a) w'
            | (Raise e, w') => (Raise e, w')
            end).

#[global] Instance M_throw : MThrow exn M := λ A e, MkM (λ w, (Raise e, w)).

(** [try: body except Exception as e: handler e]. *)
Definition try_except {A} (body : M A) (handler : exn → M A) : M A :=
  MkM (λ w, match run body w with
            | (Return a, w') => (Return a, w')
            | (Raise e, w') => run (handler e) w'
            end).

Definition get_world : M world := MkM (λ w, (Return w, w)).
Definition modify (f : world → world) : M () := MkM (λ w, (Return (), f w)).
Definition emit (e : event) : M () := modify (add_log [e]).

(** [body] run on an empty trace: its value with the page elements it
    showed, the trace put back in front of what [body] added. *)
Definition st_elements (l : list event) : list st_elem :=
  omap (λ e, match e with St s => Some s | Lib _ => None end) l.

Definition recording {A} (body : M A) : M (A * list st_elem) :=
  MkM (λ w, match run body (set_log [] w) with
            | (Return a, w') => (Return (a, st_elements (log w')), set_log (log w ++ log w') w')
            | (Raise e, w') => (Raise e, set_log (log w ++ log w') w')
            end).

(** [df[col]]: the column, [KeyError] when the frame has no such column. *)
Definition getitem (df : DataFrame) (col : string) : M Series :=
  if has_column df col then mret (column df col) else mthrow (KeyError col).

(** [df[[c1, c2, ...]]]: the frame cut down to the listed columns. *)
Definition getitems (df : DataFrame) (cols : list string) : M DataFrame :=
  match List.filter (λ c, negb (has_column df c)) cols with
  | [] => mret {| columns := cols;
                  rows := map (filter (λ kv, kv.1 ∈ cols)) (rows df) |}
  | missing => mthrow (KeyErrorNotInIndex missing)
  end.

(** [s.dt.date]: the accessor refuses a series that holds anything but
    date-times. *)
Definition dt_date (s : Series) : M (list (option Z)) :=
  if forallb is_datetimelike s then mret (map date_of_cell s)
  else mthrow (AttributeError "Can only use .dt accessor with datetimelike values").

(** [t.date()] for the [t] that [min()] or [max()] returned.  On [NaT] no
    date comes out and the date picker that receives it fails; a table
    that [load_data] returned and that is not empty never gets there. *)
Definition date (t : option Z) : M Z :=
  match t with
  | Some ns => mret (date_of ns)
  | None => mthrow (LibraryError "NaT")
  end.

(** [key in st.session_state], [st.session_state.key] and
    [st.session_state.key = v]. *)
Definition session_has (key : string) : M bool :=
  w ← get_world; mret (bool_decide (is_Some (session_state w !! key))).

Definition session_get (key : string) : M Z :=
  w ← get_world;
  match session_state w !! key with
  | Some v => mret v
  | None => mthrow (AttributeError key)
  end.

Definition session_set (key : string) (v : Z) : M () :=
  modify (set_session (<[key := v]>)).

(** [st.subheader], [st.error], [st.warning], [st.write]. *)
Definition st_subheader (body : string) : M () := emit (St (StSubheader body)).
Definition st_error (body : string) : M () := emit (St (StError body)).
Definition st_warning (body : string) : M () := emit (St (StWarning body)).
Definition st_write (df : DataFrame) : M () := emit (St (StWrite df)).

(** [st.date_input(label, value=value, key=key)]: the date the user picked
    in the widget of that key, [value] as long as none was picked. *)
Definition st_date_input (label : string) (value : Z) (key : string) : M Z :=
  w ← get_world;
  let v := default value (session_state w !! key) in
  session_set key v;;
  emit (St (StDateInput label v key));;
  mret v.

(** ** Notions the properties are stated with *)

(** [m] ends with [r] in every world and touches nothing but the trace, to
    which it adds [evs]. *)
Definition writes {A} (m : M A) (r : outcome A) (evs : list event) : Prop :=
  ∀ w, run m w = (r, add_log evs w).

(** The row lies in the range of days from [start_date] to [end_date]. *)
Definition in_range (start_date end_date : Z) (r : Row) : bool :=
  match at_col "Timestamp" r with
  | Datetime ns =>
      bool_decide (start_date ≤ date_of ns) && bool_decide (date_of ns ≤ end_date)
  | _ => false
  end.

(** The table of the rows of [data] that lie in the range, in their order. *)
Definition rows_in_range (data : DataFrame) (start_date end_date : Z) : DataFrame :=
  {| columns := columns data;
     rows := List.filter (in_range start_date end_date) (rows data) |}.

(** The date a picker returns in a session [ss]: the one picked in the
    widget, else the one the script kept under [key], else [fallback]. *)
Definition picked (key widget : string) (fallback : Z) (ss : gmap string Z) : Z :=
  default (default fallback (ss !! key)) (ss !! widget).

(** The table of counts after the values [done]: one entry per value that
    occurred, holding the number of its occurrences. *)
Definition counted (acc : list (cell * nat)) (done : list cell) : Prop :=
  NoDup acc.*1 ∧
  ∀ k n, (k, n) ∈ acc ↔ k ∈ done ∧ n = count_occ cell_eq_dec done k.

(** The range the two pickers give for a table in a session: by default
    the first and the last day of the table. *)
Definition selected_range (data : DataFrame) (ss : gmap string Z) : Z * Z :=
  let ts := column data "Timestamp" in
  (picked "start_date" "start_date_input" (from_option date_of 0 (series_min ts)) ss,
   picked "end_date" "end_date_input" (from_option date_of 0 (series_max ts)) ss).

(** The session once the pickers returned [start_date] and [end_date]. *)
Definition kept_range (start_date end_date : Z) (ss : gmap string Z) : gmap string Z :=
  <["end_date" := end_date]>
    (<["start_date" := start_date]>
       (<["end_date_input" := end_date]>
          (<["start_date_input" := start_date]> ss))).

(** A world in which nothing happened yet, and the events a fragment adds
    when it runs there. *)
Definition blank : world :=
  {| now := 0; session_state := ∅; cache := None; log := [] |}.

Definition unit_events (u : M ()) : list event := log (run u blank).2.

Definition is_st_error (e : event) : bool :=
  match e with
  | St (StError _) => true
  | _ => false
  end.

(** A fragment that only writes to the trace, and only events in [P]. *)
Definition writer_of (P : event → Prop) {A} (m : M A) : Prop :=
  ∃ r evs, writes m r evs ∧ Forall P evs.

(** The shape of the events of a presentation unit with the heading
    [title]: after the heading come the events [built] of building it and,
    when building it raised, one message, [message]. *)
Definition unit_shape (title : string) (built : list event) (message : option string)
    (evs : list event) : Prop :=
  evs = St (StSubheader title) :: built
        ++ from_option (λ body, [St (StError body)]) [] message.

(** A plot call or a drawn figure takes its time axis and its values from
    whole columns of [data]. *)
Definition over_columns (data : DataFrame) (x y : Series) : Prop :=
  x = column data "Timestamp" ∧ (∃ col, y = column data col)
  ∧ length x = length (rows data) ∧ length y = length (rows data).

Definition plots_over (data : DataFrame) (e : event) : Prop :=
  match e with
  | Lib (PltPlot x y _) => over_columns data x y
  | St (StPyplot (LineFigure _ lines)) =>
      Forall (λ l : line, over_columns data l.1.1 l.1.2) lines
  | _ => True
  end.

Definition is_plot (e : event) : bool :=
  match e with
  | Lib (PltPlot _ _ _) | St (StPyplot _) => true
  | _ => false
  end.

(** Fetches from the remote source in a trace. *)
Definition is_fetch (e : event) : bool :=
  match e with
  | Lib (PdReadCsv _) => true
  | _ => false
  end.

Definition fetches (l : list event) : nat := length (List.filter is_fetch l).

(** Calls that build or draw a chart. *)
Definition is_chart_call (e : event) : bool :=
  match e with
  | Lib (PdReadCsv _) => false
  | Lib _ => true
  | St (StPlotlyChart _) | St (StPyplot _) => true
  | St _ => false
  end.


(** ** The script *)

Definition spreadsheet_url : string :=
  "https://docs.google.com/spreadsheets/d/1S5rbM_i_k_mmWcaT5HfD53hGuAjesUjd7J5TfD8qKT8/gviz/tq?tqx=out:csv".

Definition required_columns : list string :=
  ["Timestamp"; "Fan State"; "Humidifier State";
   "LED Brightness"; "Temperature"; "Humidity";
   "Soil Moisture"; "Light Intensity"].

Definition cache_ttl : Z := 5.

(** ** Sample feeds and worlds *)

Module Sample.

Definition reading (ts fan hum led : cell) (t h soil light : Z) : Row :=
  list_to_map
    [("Timestamp", ts); ("Fan State", fan); ("Humidifier State", hum);
     ("LED Brightness", led); ("Temperature", Int64 t); ("Humidity", Int64 h);
     ("Soil Moisture", Int64 soil); ("Light Intensity", Int64 light)].

(** Three readings; the time of the second does not parse and the third
    has no LED value. *)
Definition feed : DataFrame :=
  {| columns := required_columns;
     rows := [reading (Str "2024-01-01 08:00:00") (Str "ON") (Str "OFF") (Int64 255)
                24 80 512 300;
              reading (Str "not-a-date") (Str "ON") (Str "ON") (Int64 128)
                25 81 510 310;
              reading (Str "2024-01-03 23:59:59") (Str "OFF") (Str "ON") NaN
                23 82 500 0] |}.

(** The same feed without the column [Humidity]. *)
Definition feed_without_humidity : DataFrame :=
  {| columns := ["Timestamp"; "Fan State"; "Humidifier State"; "LED Brightness";
                 "Temperature"; "Soil Moisture"; "Light Intensity"];
     rows := delete "Humidity" <$> rows feed |}.

(** A parser that knows the date-times of the sample feed. *)
Definition to_datetime (_ : Series) (c : cell) : option Z :=
  match c with
  | Str "2024-01-01 08:00:00" => Some 1704096000000000000
  | Str "2024-01-02 09:30:00" => Some 1704187800000000000
  | Str "2024-01-03 23:59:59" => Some 1704326399000000000
  | _ => None
  end.

Definition str (e : exn) : string :=
  match e with
  | KeyError key => "'" +:+ key +:+ "'"
  | KeyErrorNotInIndex cols => "[" +:+ String.concat ", " cols +:+ "] not in index"
  | AttributeError msg => msg
  | LibraryError msg => msg
  end.

(** A remote source that serves the feed, and one that is down. *)
Definition serving (_ : string) (_ : Z) : outcome DataFrame := Return feed.
Definition serving_without_humidity (_ : string) (_ : Z) : outcome DataFrame :=
  Return feed_without_humidity.
Definition down (_ : string) (_ : Z) : outcome DataFrame :=
  Raise (LibraryError "HTTP Error 404: Not Found").

(** Plotting that works, and plotting in which [px.bar] fails. *)
Definition plotting (_ : event) : option exn := None.
Definition bar_fails (e : event) : option exn :=
  match e with
  | Lib (PxBar _) => Some (LibraryError "cannot build the bar chart")
  | _ => None
  end.


(** The first run of a session at second 100, and a run in a session whose
    pickers hold 2024-01-05 as start and 2024-01-03 as end. *)
Definition first_run : world :=
  {| now := 100; session_state := ∅; cache := None; log := [] |}.

Definition reversed_range : world :=
  {| now := 100;
     session_state := {[ "start_date_input" := 19727; "end_date_input" := 19725 ]};
     cache := None; log := [] |}.

(** A run in a session whose pickers both hold 2024-01-01. *)
Definition one_day_range : world :=
  {| now := 100;
     session_state := {[ "start_date_input" := 19723; "end_date_input" := 19723 ]};
     cache := None; log := [] |}.

(** The table loaded from the sample feed: its first and third reading. *)
Definition table : DataFrame :=
  {| columns := required_columns;
     rows := [reading (Datetime 1704096000000000000) (Str "ON") (Str "OFF") (Int64 255)
                24 80 512 300;
              reading (Datetime 1704326399000000000) (Str "OFF") (Str "ON") NaN
                23 82 500 0] |}.

(** The world a fetch of the sample feed at second 100 leaves. *)
Definition fetched_at_100 : world :=
  {| now := 100; session_state := ∅;
     cache := Some {| stored_at := 100; cached_value := table; cached_elements := [] |};
     log := [Lib (PdReadCsv spreadsheet_url)] |}.

(** What a fetch at second 100 adds to a world: the call, and the entry
    for the table or for the failure message. *)
Definition with_fetch (w : world) : world :=
  set_cache (Some {| stored_at := 100; cached_value := table; cached_elements := [] |})
    (add_log [Lib (PdReadCsv spreadsheet_url)] w).

Definition with_failed_fetch (w : world) : world :=
  let failure := StError "Error loading data: HTTP Error 404: Not Found" in
  set_cache (Some {| stored_at := 100; cached_value := empty_frame;
                     cached_elements := [failure] |})
    (add_log [Lib (PdReadCsv spreadsheet_url); St failure] w).

(** A later state of the feed, with one reading of 2 January, served from
    second 200 on. *)
Definition later_feed : DataFrame :=
  {| columns := required_columns;
     rows := [reading (Str "2024-01-02 09:30:00") (Str "ON") (Str "ON") (Int64 64)
                22 85 505 120] |}.

Definition later_table : DataFrame :=
  {| columns := required_columns;
     rows := [reading (Datetime 1704187800000000000) (Str "ON") (Str "ON") (Int64 64)
                22 85 505 120] |}.

Definition changing (_ : string) (t : Z) : outcome DataFrame :=
  if bool_decide (t < 200) then Return feed else Return later_feed.

(** A feed in which no time parses. *)
Definition feed_unparsed : DataFrame :=
  {| columns := required_columns;
     rows := [reading (Str "yesterday") (Str "ON") (Str "OFF") (Int64 255) 24 80 512 300;
              reading NaN (Str "OFF") (Str "OFF") (Int64 0) 23 79 511 0] |}.

Definition serving_unparsed (_ : string) (_ : Z) : outcome DataFrame :=
  Return feed_unparsed.

End Sample.

Section Script.

(** What [pd.read_csv(url)] gives at a time: a frame, or the exception of
    a failed fetch (network, decoding, malformed CSV). *)
Variable read_csv : string → Z → outcome DataFrame.

(** [pd.to_datetime(s, errors='coerce')]: for the series [s], the instant
    a value of [s] parses to, [None] ([NaT]) for a value that does not
    parse.  With [errors='coerce'] the call itself does not raise. *)
Variable to_datetime : Series → cell → option Z.

(** Whether a plotting or display call raises, and with what. *)
Variable raises : event → option exn.

(** [str(e)], the text an f-string puts in for [{e}]. *)
Variable str : exn → string.

Definition pd_read_csv (url : string) : M DataFrame :=
  emit (Lib (PdReadCsv url));;
  w ← get_world;
  match read_csv url (now w) with
  | Return df => mret df
  | Raise e => mthrow e
  end.

Definition pd_to_datetime (s : Series) : Series :=
  map (λ c, from_option Datetime NaT (to_datetime s c)) s.

(** A plotting call: made, then possibly failing. *)
Definition lib (c : lib_call) : M () :=
  emit (Lib c);;
  match raises (Lib c) with
  | Some e => mthrow e
  | None => mret ()
  end.

(** [st.plotly_chart] and [st.pyplot]: the element is on the page unless
    the call fails. *)
Definition display (e : st_elem) : M () :=
  match raises (St e) with
  | Some x => mthrow x
  | None => emit (St e)
  end.

(** [st.cache_data(ttl=ttl)] around a function without arguments: an entry
    is served while the clock is before its expiry, [ttl] after it was
    stored; otherwise the function runs and its result is stored. *)
Definition cache_data (ttl : Z) (f : M DataFrame) : M DataFrame :=
  w ← get_world;
  let miss :=
    '(v, shown) ← recording f;
    modify (set_cache (Some {| stored_at := now w; cached_value := v;
                               cached_elements := shown |}));;
    mret v in
  match cache w with
  | Some c =>
      if bool_decide (now w < stored_at c + ttl)
      then modify (add_log (St <$> cached_elements c));; mret (cached_value c)
      else miss
  | None => miss
  end.

(** Line 53, [[col for col in required_columns if col not in data.columns]]. *)
Definition missing_columns (data : DataFrame) : list string :=
  List.filter (λ col, negb (has_column data col)) required_columns.

(** The body of [load_data], lines 45-64. *)
Definition load_data_body : M DataFrame :=
  try_except
    (data ← pd_read_csv spreadsheet_url;
     match missing_columns data with
     | (_ :: _) as missing =>
         st_error ("Missing columns in the data: " +:+ String.concat ", " missing);;
         mret empty_frame
     | [] =>
         ts ← getitem data "Timestamp";
         let data := setitem data "Timestamp" (pd_to_datetime ts) in
         let data := dropna data "Timestamp" in
         mret data
     end)
    (λ e, st_error ("Error loading data: " +:+ str e);;
          mret empty_frame).

(** [load_data] as the script calls it: behind [@st.cache_data(ttl=5)]. *)
Definition load_data : M DataFrame := cache_data cache_ttl load_data_body.

(** The table and the messages one run of the body ends with, read off
    the three ways through it, for what [read_csv] gave. *)
Definition load_value (fetched : outcome DataFrame) : DataFrame :=
  match fetched with
  | Return data =>
      match missing_columns data with
      | [] => dropna (setitem data "Timestamp"
                        (pd_to_datetime (column data "Timestamp"))) "Timestamp"
      | _ :: _ => empty_frame
      end
  | Raise _ => empty_frame
  end.

Definition load_messages (fetched : outcome DataFrame) : list st_elem :=
  match fetched with
  | Return data =>
      match missing_columns data with
      | [] => []
      | (_ :: _) as missing =>
          [StError ("Missing columns in the data: " +:+ String.concat ", " missing)]
      end
  | Raise e => [StError ("Error loading data: " +:+ str e)]
  end.

(** The statements under [try] of the chart of the two actuator states,
    lines 97-110. *)
Definition fan_humidifier_try (filtered_data : DataFrame) : M () :=
  sel ← getitems filtered_data ["Timestamp"; "Fan State"; "Humidifier State"];
  let fan_humidifier_data := melt sel ["Fan State"; "Humidifier State"] in
  lib (PxBar fan_humidifier_data);;
  let fig_fan_humidifier := BarFigure fan_humidifier_data in
  lib (UpdateLayout fig_fan_humidifier);;
  display (StPlotlyChart fig_fan_humidifier).

(** The chart of the two actuator states, lines 96-112: the statements
    under [try], and the handler of [except Exception as e]. *)
Definition fan_humidifier_chart (filtered_data : DataFrame) : M () :=
  st_subheader "Fan and Humidifier States Over Time";;
  try_except (fan_humidifier_try filtered_data)
    (λ e, st_error ("Error creating Fan and Humidifier plot: " +:+ str e)).

(** The statements under [try] of the distribution of the LED values,
    lines 117-131. *)
Definition led_try (filtered_data : DataFrame) : M () :=
  if has_column filtered_data "LED Brightness" then
    led ← getitem filtered_data "LED Brightness";
    let led_count := value_counts led in
    lib (PxPie led_count.*2 led_count.*1);;
    let fig_led := PieFigure led_count.*2 led_count.*1 in
    lib (UpdateTraces fig_led);;
    lib (UpdateLayout fig_led);;
    display (StPlotlyChart fig_led)
  else
    st_warning "The column 'LED Brightness' is missing from the data.".

(** The distribution of the LED values, lines 115-133. *)
Definition led_chart (filtered_data : DataFrame) : M () :=
  st_subheader "LED State Distribution";;
  try_except (led_try filtered_data)
    (λ e, st_error ("Error creating LED distribution chart: " +:+ str e)).

(** Lines 74-84: the range starts as the first and last day of the
    table, is offered in the two date pickers, and what they return is
    kept in the session for the next run. *)
Definition date_range (data : DataFrame) : M (Z * Z) :=
  has_start ← session_has "start_date";
  (if negb has_start then
     ts ← getitem data "Timestamp";
     d ← date (series_min ts);
     session_set "start_date" d
   else mret ());;
  has_end ← session_has "end_date";
  (if negb has_end then
     ts ← getitem data "Timestamp";
     d ← date (series_max ts);
     session_set "end_date" d
   else mret ());;
  value ← session_get "start_date";
  start_date ← st_date_input "Start Date" value "start_date_input";
  value ← session_get "end_date";
  end_date ← st_date_input "End Date" value "end_date_input";
  session_set "start_date" start_date;;
  session_set "end_date" end_date;;
  mret (start_date, end_date).

(** Line 86, [data[(data['Timestamp'].dt.date >= start_date) &
                   (data['Timestamp'].dt.date <= end_date)]]. *)
Definition filter_by_date (data : DataFrame) (start_date end_date : Z) : M DataFrame :=
  ts1 ← getitem data "Timestamp";
  d1 ← dt_date ts1;
  ts2 ← getitem data "Timestamp";
  d2 ← dt_date ts2;
  mret (bool_index data (zip_with andb (ge_date start_date <$> d1)
                                       (le_date end_date <$> d2))).

Definition show_filtered_data (data : DataFrame) : M () :=
  st_subheader "Filter Data by Date Range";;
  if empty data then
    st_error "No data loaded. Please check your Google Sheets link or data format."
  else
    '(start_date, end_date) ← date_range data;
    filtered_data ← filter_by_date data start_date end_date;
    if empty filtered_data then
      st_warning "No data available for the selected date range."
    else
      st_write filtered_data;;
      fan_humidifier_chart filtered_data;;
      led_chart filtered_data.

(** The statements under [try] of a matplotlib panel of two lines over
    the same time axis, the shape of lines 139-148 and of lines 156-165. *)
Definition line_panel_try (data : DataFrame) (title : string)
    (col1 label1 col2 label2 : string) : M () :=
  lib PltFigure;;
  x1 ← getitem data "Timestamp";
  y1 ← getitem data col1;
  lib (PltPlot x1 y1 label1);;
  x2 ← getitem data "Timestamp";
  y2 ← getitem data col2;
  lib (PltPlot x2 y2 label2);;
  lib (PltDecorate title);;
  display (StPyplot (LineFigure title [(x1, y1, label1); (x2, y2, label2)])).

(** The panel, the shape of lines 137-150 and of lines 154-167. *)
Definition line_panel (data : DataFrame) (title failure : string)
    (col1 label1 col2 label2 : string) : M () :=
  st_subheader title;;
  try_except (line_panel_try data title col1 label1 col2 label2)
    (λ e, st_error (failure +:+ str e)).

Definition show_temp_humidity (data : DataFrame) : M () :=
  line_panel data "Temperature and Humidity Over Time"
    "Error plotting Temperature and Humidity: "
    "Temperature" "Temperature (°C)" "Humidity" "Humidity (%)".

Definition show_soil_light (data : DataFrame) : M () :=
  line_panel data "Soil Moisture and Light Intensity Over Time"
    "Error plotting Soil Moisture and Light Intensity: "
    "Soil Moisture" "Soil Moisture (raw)" "Light Intensity" "Light Intensity (lux)".

Definition main : M () :=
  data ← load_data;
  show_filtered_data data;;
  show_temp_humidity data;;
  show_soil_light data.

(** Lines 177-180: the button starts a run, and both branches call [main]. *)
Definition script (refresh_clicked : bool) : M () :=
  if refresh_clicked then main else main.

(** A table [load_data] can hand to the renderer: one that the body of
    [load_data] returned in some run. *)
Definition loaded (data : DataFrame) : Prop :=
  ∃ w w', run load_data_body w = (Return data, w').

(** The cache holds nothing but such a table. *)
Definition cache_ok (w : world) : Prop :=
  ∀ c, cache w = Some c → loaded (cached_value c).

(** The events of a presentation unit: its heading, then what building it
    added, which holds no failure message, and, when building it raised
    [e], the one message of this unit for [e] at the end. *)
Definition reported (title failure : string) (evs : list event) : Prop :=
  ∃ built,
    Forall (λ e, is_st_error e = false) built ∧
    (unit_shape title built None evs
     ∨ ∃ e, unit_shape title built (Some (failure +:+ str e)) evs).


(** A call of [load_data] when the clock shows [t]. *)
Definition load_at (t : Z) : M DataFrame :=
  modify (set_now t);; load_data.

(** A run of the script when the clock shows [t], started by the button
    or by any other interaction. *)
Definition rerun (t : Z) (refresh_clicked : bool) : M () :=
  modify (set_now t);; script refresh_clicked.

(** ** Basic equations of the monad *)

Lemma run_ret {A} (a : A) w : run (mret a) w = (Return a, w).
Proof. reflexivity. Qed.

Lemma run_throw {A} (e : exn) w : run (mthrow e : M A) w = (Raise e, w).
Proof. reflexivity. Qed.

Lemma run_bind {A B} (m : M A) (f : A → M B) w :
run (m ≫= f) w =
match run m w with
| (Return a, w') => run (f a) w'
| (Raise e, w') => (Raise e, w')
end.
Proof. reflexivity. Qed.

Lemma run_try_except {A} (body : M A) (handler : exn → M A) w :
run (try_except body handler) w =
match run body w with
| (Return a, w') => (Return a, w')
| (Raise e, w') => run (handler e) w'
end.
Proof. reflexivity. Qed.

Lemma run_emit e w : run (emit e) w = (Return (), add_log [e] w).
Proof. reflexivity. Qed.

Lemma run_modify f w : run (modify f) w = (Return (), f w).
Proof. reflexivity. Qed.

Lemma run_get_world w : run get_world w = (Return w, w).
Proof. reflexivity. Qed.

Lemma run_recording {A} (body : M A) w :
  run (recording body) w =
  match run body (set_log [] w) with
  | (Return a, w') =>
      (Return (a, st_elements (log w')), set_log (log w ++ log w') w')
  | (Raise e, w') => (Raise e, set_log (log w ++ log w') w')
  end.
Proof. reflexivity. Qed.

Lemma add_log_nil w : add_log [] w = w.
Proof. destruct w; unfold add_log, set_log; simpl. by rewrite app_nil_r. Qed.

Lemma add_log_app l1 l2 w : add_log l2 (add_log l1 w) = add_log (l1 ++ l2) w.
Proof. unfold add_log, set_log; simpl. by rewrite app_assoc. Qed.

Lemma run_getitem df col w :
run (getitem df col) w =
(if has_column df col then Return (column df col) else Raise (KeyError col), w).
Proof. unfold getitem. by destruct (has_column df col). Qed.

(** Running a script fragment step by step. *)
Ltac mstep :=
  repeat (progress (
    unfold st_subheader, st_error, st_warning, st_write;
    rewrite ?run_bind, ?run_try_except, ?run_emit, ?run_modify,
            ?run_get_world, ?run_ret, ?run_throw, ?run_getitem, ?add_log_app;
    lazy beta iota)).

(** ** The loader *)

Lemma run_pd_read_csv url w :
  run (pd_read_csv url) w =
  (read_csv url (now w), add_log [Lib (PdReadCsv url)] w).
Proof.
  unfold pd_read_csv. rewrite run_bind, run_emit, run_bind, run_get_world. simpl.
  by destruct (read_csv url (now w)).
Qed.

Lemma missing_columns_spec data col :
  col ∈ missing_columns data ↔ col ∈ required_columns ∧ col ∉ columns data.
Proof.
  unfold missing_columns. rewrite !list_elem_of_In, filter_In, <- !list_elem_of_In.
  unfold has_column. rewrite negb_true_iff, bool_decide_eq_false. tauto.
Qed.

Lemma missing_columns_nil data col :
  missing_columns data = [] → col ∈ required_columns → has_column data col = true.
Proof.
  intros Hnil Hreq. unfold has_column. apply bool_decide_eq_true.
  destruct (decide (col ∈ columns data)) as [|Hno]; [done|].
  assert (col ∈ missing_columns data) as Hin by (by apply missing_columns_spec).
  rewrite Hnil in Hin. by apply elem_of_nil in Hin.
Qed.

(** What the body of [load_data] does, case by case. *)
Lemma run_load_data_body w :
  run load_data_body w =
  (Return (load_value (read_csv spreadsheet_url (now w))),
   add_log (Lib (PdReadCsv spreadsheet_url)
            :: (St <$> load_messages (read_csv spreadsheet_url (now w)))) w).
Proof.
  unfold load_data_body, load_value, load_messages.
  rewrite run_try_except, run_bind, run_pd_read_csv.
  destruct (read_csv spreadsheet_url (now w)) as [data|e]; [|by mstep].
  destruct (missing_columns data) as [|c missing] eqn:Hmiss; [|by mstep].
  mstep. rewrite (missing_columns_nil data "Timestamp" Hmiss); [done|].
  unfold required_columns. apply list_elem_of_here.
Qed.

Lemma st_elements_app l1 l2 :
  st_elements (l1 ++ l2) = st_elements l1 ++ st_elements l2.
Proof. unfold st_elements. apply omap_app. Qed.

Lemma st_elements_St l : st_elements (St <$> l) = l.
Proof. unfold st_elements. induction l as [|e l IH]; csimpl; [done | by rewrite IH]. Qed.

(** A call of [load_data] that finds a live entry serves it. *)
Lemma run_load_data_hit w c :
  cache w = Some c →
  now w < stored_at c + cache_ttl →
  run load_data w = (Return (cached_value c), add_log (St <$> cached_elements c) w).
Proof.
  intros Hc Hlive. unfold load_data, cache_data.
  rewrite run_bind, run_get_world. lazy beta iota. rewrite Hc.
  rewrite bool_decide_eq_true_2 by done. by mstep.
Qed.

(** A call that finds no entry, or an expired one, runs the body and
    stores what it returned. *)
Lemma run_load_data_miss w :
  match cache w with
  | Some c => stored_at c + cache_ttl ≤ now w
  | None => True
  end →
  let fetched := read_csv spreadsheet_url (now w) in
  run load_data w =
  (Return (load_value fetched),
   set_cache (Some {| stored_at := now w;
                      cached_value := load_value fetched;
                      cached_elements := load_messages fetched |})
     (add_log (Lib (PdReadCsv spreadsheet_url) :: (St <$> load_messages fetched)) w)).
Proof.
  intros Hmiss fetched. unfold load_data, cache_data.
  rewrite run_bind, run_get_world. lazy beta iota.
  assert (∀ k : M DataFrame,
    run ('(v, shown) ← recording load_data_body;
         modify (set_cache (Some {| stored_at := now w; cached_value := v;
                                    cached_elements := shown |}));;
         mret v) w =
    (Return (load_value fetched),
     set_cache (Some {| stored_at := now w;
                        cached_value := load_value fetched;
                        cached_elements := load_messages fetched |})
       (add_log (Lib (PdReadCsv spreadsheet_url) :: (St <$> load_messages fetched)) w)))
    as Hrun.
  { intros _. rewrite run_bind, run_recording, run_load_data_body.
    simpl now. fold fetched. lazy beta iota. mstep. simpl log.
    change (st_elements (?a :: ?l)) with (st_elements l).
    by rewrite st_elements_St. }
  destruct (cache w) as [c|]; [|by apply Hrun, load_data_body].
  rewrite bool_decide_eq_false_2 by lia. by apply Hrun, load_data_body.
Qed.


Lemma at_col_insert col v (r : Row) : at_col col (<[col := v]> r) = v.
Proof. unfold at_col. by rewrite lookup_insert_eq. Qed.

Lemma rows_coerced (g : cell → option Z) (rs : list Row) :
  List.filter (λ r, notna (at_col "Timestamp" r))
    (zip_with (λ r v, <["Timestamp" := v]> r) rs
       (map (λ c, from_option Datetime NaT (g c)) (map (at_col "Timestamp") rs))) =
  omap (λ r, (λ ns, <["Timestamp" := Datetime ns]> r) <$> g (at_col "Timestamp" r)) rs.
Proof.
  induction rs as [|r rs IH]; [done|].
  cbn [map zip_with List.filter]. rewrite at_col_insert, IH. csimpl.
  by destruct (g (at_col "Timestamp" r)).
Qed.

Lemma load_value_rows data :
  missing_columns data = [] →
  rows (load_value (Return data)) =
  omap (λ r, (λ ns, <["Timestamp" := Datetime ns]> r)
               <$> to_datetime (column data "Timestamp") (at_col "Timestamp" r))
       (rows data).
Proof.
  intros Hmiss. unfold load_value. rewrite Hmiss.
  unfold dropna, setitem, pd_to_datetime, column. cbn [rows].
  apply rows_coerced.
Qed.

Lemma load_value_columns data :
  missing_columns data = [] →
  columns (load_value (Return data)) = columns data.
Proof.
  intros Hmiss. unfold load_value. rewrite Hmiss. cbn [dropna setitem columns].
  rewrite (missing_columns_nil data "Timestamp" Hmiss); [done|].
  unfold required_columns. apply list_elem_of_here.
Qed.

Lemma load_value_timestamps data r :
  missing_columns data = [] →
  r ∈ rows (load_value (Return data)) →
  ∃ ns, at_col "Timestamp" r = Datetime ns.
Proof.
  intros Hmiss. rewrite (load_value_rows data Hmiss), list_elem_of_omap.
  intros (r0 & _ & Hr0).
  destruct (to_datetime _ _) as [ns|]; [|done].
  injection Hr0 as <-. exists ns. apply at_col_insert.
Qed.

(** Every table the loader hands out is the empty frame or a table with
    the eight columns in which every row has a parsed time. *)
Lemma loaded_cases data :
  loaded data →
  data = empty_frame ∨
  ((∀ col, col ∈ required_columns → has_column data col = true) ∧
   (∀ r, r ∈ rows data → ∃ ns, at_col "Timestamp" r = Datetime ns)).
Proof.
  intros (w & w' & Hrun). rewrite run_load_data_body in Hrun.
  injection Hrun as <- _.
  destruct (read_csv spreadsheet_url (now w)) as [feed|e]; [|by left].
  destruct (missing_columns feed) as [|c l] eqn:Hmiss.
  - right. split.
    + intros col Hcol. unfold has_column.
      rewrite (load_value_columns feed Hmiss).
      by apply (missing_columns_nil feed col Hmiss).
    + intros r. by apply load_value_timestamps.
  - left. unfold load_value. by rewrite Hmiss.
Qed.

(** C1.  When the feed lacks one of the eight required columns, the loader
    returns the empty frame (no column, no row), and the one message it
    shows lists the required columns that the feed does not have, those
    and no others; nothing of the feed is loaded. *)
Theorem load_data_missing_columns w data col :
  read_csv spreadsheet_url (now w) = Return data →
  col ∈ required_columns →
  col ∉ columns data →
  run load_data_body w =
    (Return empty_frame,
     add_log [Lib (PdReadCsv spreadsheet_url);
              St (StError ("Missing columns in the data: "
                           +:+ String.concat ", " (missing_columns data)))] w)
  ∧ rows empty_frame = []
  ∧ (∀ c, c ∈ missing_columns data ↔ c ∈ required_columns ∧ c ∉ columns data).
Proof.
  intros Hfeed Hreq Hno. split; [|split; [done | apply missing_columns_spec]].
  rewrite run_load_data_body, Hfeed. unfold load_value, load_messages.
  assert (col ∈ missing_columns data) as Hin by (by apply missing_columns_spec).
  destruct (missing_columns data); [by apply elem_of_nil in Hin | done].
Qed.

(** C4.  When the feed has the eight required columns, the loader shows no
    message and returns the rows of the feed whose time parses, in their
    order, each with its time parsed; a row whose time does not parse is
    not in the result, and every row of the result has a parsed time. *)
Theorem load_data_drops_unparsed w data :
  read_csv spreadsheet_url (now w) = Return data →
  (∀ col, col ∈ required_columns → col ∈ columns data) →
  let parse := to_datetime (column data "Timestamp") in
  ∃ table,
    run load_data_body w = (Return table, add_log [Lib (PdReadCsv spreadsheet_url)] w)
    ∧ columns table = columns data
    ∧ rows table =
        omap (λ r, (λ ns, <["Timestamp" := Datetime ns]> r)
                     <$> parse (at_col "Timestamp" r)) (rows data)
    ∧ (∀ r, r ∈ rows table → ∃ ns, at_col "Timestamp" r = Datetime ns)
    ∧ length (rows table) =
        length (List.filter (λ r, bool_decide (is_Some (parse (at_col "Timestamp" r))))
                  (rows data)).
Proof.
  intros Hfeed Hall parse.
  assert (missing_columns data = []) as Hmiss.
  { destruct (missing_columns data) as [|c l] eqn:Hm; [done|].
    assert (c ∈ missing_columns data) as Hc by (rewrite Hm; apply list_elem_of_here).
    apply missing_columns_spec in Hc as [Hreq Hno]. exfalso. by apply Hno, Hall. }
  exists (load_value (Return data)). split; [|split; [|split; [|split]]].
  - rewrite run_load_data_body, Hfeed. unfold load_messages. by rewrite Hmiss.
  - by apply load_value_columns.
  - by apply load_value_rows.
  - intros r. by apply load_value_timestamps.
  - rewrite (load_value_rows data Hmiss). fold parse.
    induction (rows data) as [|r rs IH]; [done|]. csimpl.
    destruct (parse (at_col "Timestamp" r)); csimpl; by rewrite IH.
Qed.

(** C8.  When the fetch fails, the loader catches the exception, shows one
    message with its text and returns the empty frame; and whatever the
    feed gives, a call of the loader, cached or not, ends with a table and
    never with an exception. *)
Theorem load_data_fetch_failure w e :
  read_csv spreadsheet_url (now w) = Raise e →
  run load_data_body w =
    (Return empty_frame,
     add_log [Lib (PdReadCsv spreadsheet_url);
              St (StError ("Error loading data: " +:+ str e))] w)
  ∧ (∀ w0, ∃ table w', run load_data_body w0 = (Return table, w'))
  ∧ (∀ w0, ∃ table w', run load_data w0 = (Return table, w')).
Proof.
  intros Hfeed. split; [|split].
  - by rewrite run_load_data_body, Hfeed.
  - intros w0. rewrite run_load_data_body. eauto.
  - intros w0. destruct (cache w0) as [c|] eqn:Hc.
    + destruct (decide (now w0 < stored_at c + cache_ttl)) as [Hlive|Hdead].
      * rewrite (run_load_data_hit w0 c Hc Hlive). eauto.
      * rewrite run_load_data_miss; [eauto|]. rewrite Hc. lia.
    + rewrite run_load_data_miss; [eauto|]. by rewrite Hc.
Qed.


(** ** The cache window *)

Lemma run_load_at_hit w c t :
  cache w = Some c →
  t < stored_at c + cache_ttl →
  run (load_at t) w =
  (Return (cached_value c), add_log (St <$> cached_elements c) (set_now t w)).
Proof.
  intros Hc Hlive. unfold load_at. rewrite run_bind, run_modify. lazy beta iota.
  by apply run_load_data_hit.
Qed.

Lemma run_load_at_miss w t :
  match cache w with
  | Some c => stored_at c + cache_ttl ≤ t
  | None => True
  end →
  let fetched := read_csv spreadsheet_url t in
  run (load_at t) w =
  (Return (load_value fetched),
   set_cache (Some {| stored_at := t;
                      cached_value := load_value fetched;
                      cached_elements := load_messages fetched |})
     (add_log (Lib (PdReadCsv spreadsheet_url) :: (St <$> load_messages fetched))
        (set_now t w))).
Proof.
  intros Hmiss fetched. unfold load_at. rewrite run_bind, run_modify. lazy beta iota.
  by rewrite run_load_data_miss.
Qed.

Lemma fetches_St (l : list st_elem) : fetches (St <$> l) = 0%nat.
Proof. unfold fetches. induction l as [|e l IH]; csimpl; [done | apply IH]. Qed.

Lemma fetches_app l1 l2 : fetches (l1 ++ l2) = (fetches l1 + fetches l2)%nat.
Proof. unfold fetches. by rewrite List.filter_app, length_app. Qed.

Lemma fetches_replay n (l : list st_elem) :
  fetches (concat (replicate n (St <$> l))) = 0%nat.
Proof.
  induction n as [|n IH]; [done|]. simpl replicate. rewrite concat_cons, fetches_app.
  by rewrite fetches_St, IH.
Qed.

(** Calls in the window of an entry are served from it. *)
Lemma run_calls_in_window w c ts :
  cache w = Some c →
  Forall (λ t, t < stored_at c + cache_ttl) ts →
  ∃ w',
    run (mapM load_at ts) w = (Return (replicate (length ts) (cached_value c)), w')
    ∧ log w' = log w ++ concat (replicate (length ts) (St <$> cached_elements c))
    ∧ cache w' = Some c
    ∧ session_state w' = session_state w.
Proof.
  intros Hc Hts. revert w Hc.
  induction Hts as [|t ts Ht _ IH]; intros w Hc.
  - exists w. simpl. by rewrite app_nil_r.
  - cbn [mapM]. rewrite run_bind, (run_load_at_hit w c t Hc Ht). lazy beta iota.
    destruct (IH (add_log (St <$> cached_elements c) (set_now t w)) Hc)
      as (w' & Hrun & Hlog & Hcache & Hsess).
    exists w'. rewrite run_bind, Hrun. lazy beta iota. rewrite run_ret.
    split; [done|]. split; [|done].
    rewrite Hlog. cbn [length replicate]. rewrite concat_cons.
    simpl log. by rewrite !app_assoc.
Qed.

(** C5.  From a world whose cache holds the entry of the last fetch, every
    call of [load_data] made before the entry is 5 seconds old returns the
    table of that fetch and reads nothing from the remote source; the
    first call made once the 5 seconds have passed fetches again, returns
    what this fetch gives, and leaves an entry stored at its own time. *)
Theorem load_data_cache_window w c ts t1 :
  cache w = Some c →
  Forall (λ t, t < stored_at c + cache_ttl) ts →
  stored_at c + cache_ttl ≤ t1 →
  let fetched := read_csv spreadsheet_url t1 in
  ∃ w' served,
    run (mapM load_at (ts ++ [t1])) w =
      (Return (replicate (length ts) (cached_value c) ++ [load_value fetched]), w')
    ∧ log w' = log w ++ served
                 ++ Lib (PdReadCsv spreadsheet_url) :: (St <$> load_messages fetched)
    ∧ served = concat (replicate (length ts) (St <$> cached_elements c))
    ∧ fetches served = 0%nat
    ∧ fetches (Lib (PdReadCsv spreadsheet_url) :: (St <$> load_messages fetched)) = 1%nat
    ∧ cache w' = Some {| stored_at := t1;
                         cached_value := load_value fetched;
                         cached_elements := load_messages fetched |}.
Proof.
  intros Hc Hts Hlate fetched. revert w Hc.
  induction Hts as [|t ts Ht _ IH]; intros w Hc.
  - exists (set_cache (Some {| stored_at := t1;
                               cached_value := load_value fetched;
                               cached_elements := load_messages fetched |})
              (add_log (Lib (PdReadCsv spreadsheet_url) :: (St <$> load_messages fetched))
                 (set_now t1 w))), [].
    cbn [app mapM length replicate]. rewrite run_bind, run_load_at_miss.
    + lazy beta iota zeta. fold fetched. rewrite run_bind, !run_ret. lazy beta iota.
      repeat split; try done.
      change (fetches (?a :: ?l)) with (S (fetches l)). by rewrite fetches_St.
    + by rewrite Hc.
  - destruct (IH (add_log (St <$> cached_elements c) (set_now t w)) Hc)
      as (w' & served & Hrun & Hlog & Hserved & Hnone & Hone & Hcache).
    exists w', ((St <$> cached_elements c) ++ served).
    cbn [app mapM]. rewrite run_bind, (run_load_at_hit w c t Hc Ht). lazy beta iota.
    rewrite run_bind. cbn [app mapM] in Hrun. rewrite Hrun. lazy beta iota. rewrite run_ret.
    repeat split; try done.
    + rewrite Hlog. simpl log. by rewrite !app_assoc.
    + rewrite Hserved. cbn [length replicate]. by rewrite concat_cons.
    + by rewrite fetches_app, fetches_St, Hnone.
Qed.


(** ** The date filter *)

Lemma run_dt_date s w :
  run (dt_date s) w =
  (if forallb is_datetimelike s then Return (map date_of_cell s)
   else Raise (AttributeError "Can only use .dt accessor with datetimelike values"), w).
Proof. unfold dt_date. by destruct (forallb is_datetimelike s). Qed.

Lemma in_range_mask start_date end_date r :
  ge_date start_date (date_of_cell (at_col "Timestamp" r))
  && le_date end_date (date_of_cell (at_col "Timestamp" r))
  = in_range start_date end_date r.
Proof. unfold in_range. by destruct (at_col "Timestamp" r). Qed.

(** Indexing by the mask of line 86 keeps the rows in range. *)
Lemma bool_index_date_mask data start_date end_date :
  bool_index data
    (zip_with andb (ge_date start_date <$> map date_of_cell (column data "Timestamp"))
                   (le_date end_date <$> map date_of_cell (column data "Timestamp")))
  = rows_in_range data start_date end_date.
Proof.
  unfold bool_index, rows_in_range, column. f_equal.
  induction (rows data) as [|r rs IH]; [done|]. csimpl.
  rewrite in_range_mask. destruct (in_range start_date end_date r); csimpl;
    by rewrite <- IH.
Qed.

Lemma in_range_spec start_date end_date r :
  in_range start_date end_date r = true ↔
  ∃ ns, at_col "Timestamp" r = Datetime ns
        ∧ start_date ≤ date_of ns ∧ date_of ns ≤ end_date.
Proof.
  unfold in_range. destruct (at_col "Timestamp" r) as [| | | | |ns];
    try (split; [done | by intros (? & ? & _)]).
  rewrite andb_true_iff, !bool_decide_eq_true. split.
  - intros [??]. by exists ns.
  - intros (? & [= <-] & ?). done.
Qed.

(** A day as an interval of instants: the range takes a row from the first
    instant of [start_date] to the last instant of [end_date]. *)
Lemma date_of_bounds start_date end_date ns :
  start_date ≤ date_of ns ∧ date_of ns ≤ end_date ↔
  start_date * ns_per_day ≤ ns ∧ ns < (end_date + 1) * ns_per_day.
Proof.
  unfold date_of, ns_per_day.
  pose proof (Z.div_mod ns (86400 * 1000000000) ltac:(lia)) as Hdm.
  pose proof (Z.mod_pos_bound ns (86400 * 1000000000) ltac:(lia)) as Hmod.
  split; intros [??]; split; nia.
Qed.

Lemma datetimelike_column data :
  (∀ r, r ∈ rows data → ∃ ns, at_col "Timestamp" r = Datetime ns) →
  forallb is_datetimelike (column data "Timestamp") = true.
Proof.
  intros Hts. apply forallb_forall. intros c Hc. unfold column in Hc.
  apply in_map_iff in Hc as (r & <- & Hr). apply list_elem_of_In, Hts in Hr as [ns ->].
  done.
Qed.

(** A loaded table that is not empty has its columns and parsed times. *)
Lemma loaded_nonempty data :
  loaded data → empty data = false →
  (∀ col, col ∈ required_columns → has_column data col = true) ∧
  (∀ r, r ∈ rows data → ∃ ns, at_col "Timestamp" r = Datetime ns).
Proof. intros [->|?]%loaded_cases Hne; done. Qed.

Lemma run_filter_by_date data start_date end_date w :
  has_column data "Timestamp" = true →
  (∀ r, r ∈ rows data → ∃ ns, at_col "Timestamp" r = Datetime ns) →
  run (filter_by_date data start_date end_date) w =
  (Return (rows_in_range data start_date end_date), w).
Proof.
  intros Hcol Hts. unfold filter_by_date.
  mstep. rewrite Hcol. lazy beta iota. rewrite run_bind, run_dt_date.
  rewrite (datetimelike_column data Hts). mstep. rewrite Hcol. lazy beta iota.
  rewrite run_bind, run_dt_date, (datetimelike_column data Hts). mstep.
  by rewrite bool_index_date_mask.
Qed.

(** C2.  For a table the loader returned and that is not empty (the tables
    line 86 is reached with), the filter returns the table of exactly the
    rows whose day lies from [start_date] to [end_date], both included:
    the same rows in the same order, and no other. *)
Theorem filter_by_date_exact data start_date end_date w :
  loaded data →
  empty data = false →
  run (filter_by_date data start_date end_date) w =
    (Return {| columns := columns data;
               rows := List.filter (in_range start_date end_date) (rows data) |}, w)
  ∧ (∀ r, r ∈ List.filter (in_range start_date end_date) (rows data) ↔
          r ∈ rows data ∧
          ∃ ns, at_col "Timestamp" r = Datetime ns
                ∧ start_date ≤ date_of ns ∧ date_of ns ≤ end_date).
Proof.
  intros Hloaded Hne. destruct (loaded_nonempty data Hloaded Hne) as [Hcols Hts].
  split.
  - apply run_filter_by_date; [|done]. apply Hcols. apply list_elem_of_here.
  - intros r. by rewrite list_elem_of_In, filter_In, <- list_elem_of_In, in_range_spec.
Qed.


(** ** Counting the LED values *)

Lemma incr_total v acc : sum_list (incr v acc).*2 = S (sum_list acc.*2).
Proof.
  induction acc as [|[k n] acc IH]; [done|]. simpl.
  case_bool_decide; csimpl; [done|]. rewrite IH. lia.
Qed.

Lemma tally_total s acc :
  sum_list (fold_left (λ acc v, incr v acc) s acc).*2
  = (sum_list acc.*2 + length s)%nat.
Proof.
  revert acc. induction s as [|v s IH]; intros acc; simpl; [lia|].
  rewrite IH, incr_total. lia.
Qed.

Lemma insert_desc_perm p l : insert_desc p l ≡ₚ p :: l.
Proof.
  induction l as [|q l IH]; [done|]. simpl. case_bool_decide; [done|].
  rewrite IH. apply Permutation_swap.
Qed.

Lemma sort_desc_perm l : sort_desc l ≡ₚ l.
Proof.
  induction l as [|p l IH]; [done|]. simpl. by rewrite insert_desc_perm, IH.
Qed.

(** The counts add up to the number of values that are not missing. *)
Lemma value_counts_total s :
  sum_list (value_counts s).*2 = length (List.filter notna s).
Proof.
  unfold value_counts. rewrite sort_desc_perm. unfold tally.
  by rewrite tally_total.
Qed.

Lemma incr_keys v acc :
  (incr v acc).*1 = if bool_decide (v ∈ acc.*1) then acc.*1 else acc.*1 ++ [v].
Proof.
  induction acc as [|[k n] acc IH]; [done|]. cbn [incr].
  destruct (decide (k = v)) as [->|Hne].
  - rewrite bool_decide_eq_true_2 by done. rewrite !fmap_cons.
    rewrite bool_decide_eq_true_2; [done | apply list_elem_of_here].
  - rewrite bool_decide_eq_false_2 by done. rewrite !fmap_cons, IH. cbn [fst].
    destruct (decide (v ∈ acc.*1)) as [Hin|Hno].
    + rewrite !bool_decide_eq_true_2; [done | by apply list_elem_of_further | done].
    + rewrite !bool_decide_eq_false_2; [done | | done].
      intros [->|?]%elem_of_cons; done.
Qed.

Lemma incr_NoDup v acc : NoDup acc.*1 → NoDup (incr v acc).*1.
Proof.
  intros Hnd. rewrite incr_keys. case_bool_decide as Hin; [done|].
  apply NoDup_app. split; [done|]. split; [|apply NoDup_singleton].
  intros k Hk Hv. apply list_elem_of_singleton in Hv as ->. done.
Qed.

Lemma incr_elem v acc k n :
  NoDup acc.*1 →
  (k, n) ∈ incr v acc ↔
  (k ≠ v ∧ (k, n) ∈ acc)
  ∨ (k = v ∧ ((∃ m, (v, m) ∈ acc ∧ n = S m) ∨ ((v ∉ acc.*1) ∧ n = 1%nat))).
Proof.
  induction acc as [|[k0 n0] acc IH]; intros Hnd.
  - cbn [incr]. rewrite list_elem_of_singleton. split.
    + intros [= -> ->]. right. split; [done|]. right. split; [apply not_elem_of_nil | done].
    + intros [[_ Hin]|[-> [(m & Hin & _)|[_ ->]]]]; [| |done]; by apply elem_of_nil in Hin.
  - rewrite fmap_cons in Hnd. apply NoDup_cons in Hnd as [Hk0 Hnd]. specialize (IH Hnd).
    assert (∀ m, (k0, m) ∉ acc) as Hfresh.
    { intros m Hin. apply Hk0, list_elem_of_fmap. by exists (k0, m). }
    cbn [incr]. rewrite fmap_cons. cbn [fst].
    destruct (decide (k0 = v)) as [->|Hne].
    + rewrite bool_decide_eq_true_2 by done. rewrite !elem_of_cons.
      destruct (decide (k = v)) as [->|Hkv]; split.
      * intros [Heq|Hin]; [|by destruct (Hfresh n)].
        injection Heq as ->. right. split; [done|]. left. exists n0. split; [by left | done].
      * intros [[Hkv _]|[_ [(m & Hin & ->)|[Hno _]]]].
        -- done.
        -- apply elem_of_cons in Hin as [Heq|Hin]; [|by destruct (Hfresh m)].
           injection Heq as ->. by left.
        -- destruct Hno. by left.
      * intros [Heq|Hin]; [by injection Heq|]. left. split; [done | by right].
      * intros [[_ [Heq|Hin]]|[Heq _]]; [by injection Heq | by right | done].
    + rewrite bool_decide_eq_false_2 by done. rewrite !elem_of_cons, IH.
      destruct (decide (k = v)) as [->|Hkv]; split.
      * intros [Heq|[[Hkv _]|[_ [(m & Hin & ->)|[Hno ->]]]]].
        -- by injection Heq.
        -- done.
        -- right. split; [done|]. left. exists m. split; [by right | done].
        -- right. split; [done|]. right. split; [|done]. intros [->|?]; done.
      * intros [[Hkv _]|[_ [(m & Hin & ->)|[Hno ->]]]].
        -- done.
        -- apply elem_of_cons in Hin as [Heq|Hin]; [by injection Heq|].
           right. right. split; [done|]. left. by exists m.
        -- right. right. split; [done|]. right. split; [|done].
           intros Hin. apply Hno. by right.
      * intros [Heq|[[_ Hin]|[Heq _]]].
        -- left. split; [done | by left].
        -- left. split; [done | by right].
        -- done.
      * intros [[_ [Heq|Hin]]|[Heq _]].
        -- by left.
        -- right. left. done.
        -- done.
Qed.


Lemma count_occ_snoc (l : list cell) v k :
  count_occ cell_eq_dec (l ++ [v]) k
  = (count_occ cell_eq_dec l k + if decide (v = k) then 1 else 0)%nat.
Proof.
  rewrite count_occ_app. cbn [count_occ].
  destruct (cell_eq_dec v k), (decide (v = k)); done.
Qed.

Lemma count_occ_elem (l : list cell) k :
  k ∈ l ↔ (0 < count_occ cell_eq_dec l k)%nat.
Proof. rewrite list_elem_of_In. apply count_occ_In. Qed.

Lemma counted_incr acc done v :
  counted acc done → counted (incr v acc) (done ++ [v]).
Proof.
  intros [Hnd Hacc]. split; [by apply incr_NoDup|].
  intros k n. rewrite (incr_elem v acc k n Hnd), count_occ_snoc, elem_of_app,
    list_elem_of_singleton.
  assert (v ∈ acc.*1 ↔ v ∈ done) as Hkeys.
  { rewrite list_elem_of_fmap. split.
    - intros ([k' m] & -> & Hin). by apply Hacc in Hin as [? _].
    - intros Hin. exists (v, count_occ cell_eq_dec done v). split; [done|].
      by apply Hacc. }
  destruct (decide (v = k)) as [->|Hne].
  - split.
    + intros [[Hkk _]|[_ [(m & Hin & ->)|[Hno ->]]]]; [done| |].
      * apply Hacc in Hin as [Hin ->]. split; [by left | lia].
      * split; [by right|]. rewrite Hkeys, count_occ_elem in Hno. lia.
    + intros [_ ->]. right. split; [done|].
      destruct (decide (k ∈ done)) as [Hin|Hno].
      * left. exists (count_occ cell_eq_dec done k). split; [by apply Hacc | lia].
      * right. split; [by rewrite Hkeys|]. rewrite count_occ_elem in Hno. lia.
  - rewrite Hacc. split.
    + intros [[_ [Hin ->]]|[-> _]]; [|done]. split; [by left | lia].
    + intros [[Hin| ->] ->]; [|done]. left. split; [done|]. split; [done | lia].
Qed.

Lemma counted_fold s acc done :
  counted acc done →
  counted (fold_left (λ acc v, incr v acc) s acc) (done ++ s).
Proof.
  revert acc done. induction s as [|v s IH]; intros acc done Hacc.
  - by rewrite app_nil_r.
  - cbn [fold_left]. rewrite (assoc_L (++) done [v] s : done ++ v :: s = (done ++ [v]) ++ s).
    by apply IH, counted_incr.
Qed.

Lemma counted_tally s : counted (tally s) s.
Proof.
  apply (counted_fold s [] []). split; [apply NoDup_nil_2|].
  intros k n. split; [by intros ?%elem_of_nil | by intros [?%elem_of_nil _]].
Qed.

Lemma count_occ_filter_notna s k :
  notna k = true →
  count_occ cell_eq_dec (List.filter notna s) k = count_occ cell_eq_dec s k.
Proof.
  intros Hk. induction s as [|c s IH]; [done|]. cbn [List.filter count_occ].
  destruct (notna c) eqn:Hc; cbn [count_occ]; destruct (cell_eq_dec c k) as [->|?];
    congruence.
Qed.

(** Every value that is not missing has exactly one entry in
    [value_counts], with the number of times it occurs. *)
Lemma value_counts_elem s k n :
  (k, n) ∈ value_counts s ↔
  notna k = true ∧ k ∈ s ∧ n = count_occ cell_eq_dec s k.
Proof.
  unfold value_counts. rewrite sort_desc_perm.
  destruct (counted_tally (List.filter notna s)) as [_ ->].
  rewrite list_elem_of_In, filter_In, <- list_elem_of_In. split.
  - intros [[? Hk] ->]. by rewrite count_occ_filter_notna.
  - intros (Hk & ? & ->). by rewrite count_occ_filter_notna.
Qed.

Lemma value_counts_NoDup s : NoDup (value_counts s).*1.
Proof.
  unfold value_counts. rewrite sort_desc_perm. apply counted_tally.
Qed.


(** ** The date pickers *)

Lemma series_min_is_Some s :
  s ≠ [] → (∀ c, c ∈ s → ∃ ns, c = Datetime ns) → is_Some (series_min s).
Proof.
  destruct s as [|c s]; [done|]. intros _ Hs.
  destruct (Hs c) as [ns ->]; [apply list_elem_of_here|].
  cbn [series_min foldr]. by destruct (foldr _ None s).
Qed.

Lemma series_max_is_Some s :
  s ≠ [] → (∀ c, c ∈ s → ∃ ns, c = Datetime ns) → is_Some (series_max s).
Proof.
  destruct s as [|c s]; [done|]. intros _ Hs.
  destruct (Hs c) as [ns ->]; [apply list_elem_of_here|].
  cbn [series_max foldr]. by destruct (foldr _ None s).
Qed.

Lemma run_session_has key w :
  run (session_has key) w = (Return (bool_decide (is_Some (session_state w !! key))), w).
Proof. reflexivity. Qed.

Lemma run_session_set key v w :
  run (session_set key v) w = (Return (), set_session (<[key := v]>) w).
Proof. reflexivity. Qed.

Lemma run_session_get key w v :
  session_state w !! key = Some v → run (session_get key) w = (Return v, w).
Proof. intros Hv. unfold session_get. mstep. by rewrite Hv. Qed.

Lemma run_st_date_input label value key w :
  run (st_date_input label value key) w =
  let v := default value (session_state w !! key) in
  (Return v, add_log [St (StDateInput label v key)] (set_session (<[key := v]>) w)).
Proof. reflexivity. Qed.

(** The script writes a default only under a key that is not set. *)
Lemma set_session_default key d w :
  (if negb (bool_decide (is_Some (session_state w !! key)))
   then set_session (<[key := d]>) w else w)
  = set_session (<[key := default d (session_state w !! key)]>) w.
Proof.
  destruct w as [t ss c l]. cbn [session_state].
  destruct (ss !! key) as [v|] eqn:Hv; cbn [default]; [|done].
  rewrite bool_decide_eq_true_2 by done. cbn [negb].
  unfold set_session. cbn. by rewrite insert_id.
Qed.

Lemma kept_range_normal start_date end_date s0 e0 (ss : gmap string Z) :
  <["end_date" := end_date]>
    (<["start_date" := start_date]>
       (<["end_date_input" := end_date]>
          (<["start_date_input" := start_date]>
             (<["end_date" := e0]> (<["start_date" := s0]> ss)))))
  = kept_range start_date end_date ss.
Proof.
  unfold kept_range. apply map_eq. intros k.
  rewrite !lookup_insert. by repeat case_decide.
Qed.

Lemma run_date_range data w lo hi :
  has_column data "Timestamp" = true →
  series_min (column data "Timestamp") = Some lo →
  series_max (column data "Timestamp") = Some hi →
  run (date_range data) w =
  (Return (selected_range data (session_state w)),
   add_log [St (StDateInput "Start Date" (selected_range data (session_state w)).1
                  "start_date_input");
            St (StDateInput "End Date" (selected_range data (session_state w)).2
                  "end_date_input")]
     (set_session (kept_range (selected_range data (session_state w)).1
                              (selected_range data (session_state w)).2) w)).
Proof.
  intros Hcol Hlo Hhi. unfold date_range, selected_range, picked.
  rewrite Hlo, Hhi. cbn [from_option fst snd].
  set (s0 := default (date_of lo) (session_state w !! "start_date")).
  set (e0 := default (date_of hi) (session_state w !! "end_date")).
  rewrite run_bind, run_session_has. lazy beta iota.
  rewrite run_bind.
  assert (run (if negb (bool_decide (is_Some (session_state w !! "start_date")))
               then ts ← getitem data "Timestamp";
                    d ← date (series_min ts); session_set "start_date" d
               else mret ()) w
          = (Return (), set_session (<["start_date" := s0]>) w)) as ->.
  { unfold s0. rewrite <- set_session_default.
    destruct (negb _); [|done]. mstep. rewrite Hcol. lazy beta iota.
    by rewrite Hlo. }
  lazy beta iota. rewrite run_bind, run_session_has. lazy beta iota.
  rewrite run_bind.
  set (w1 := set_session (<["start_date" := s0]>) w).
  assert (session_state w1 !! "end_date" = session_state w !! "end_date") as Hend.
  { unfold w1. cbn [set_session session_state]. by rewrite lookup_insert_ne. }
  assert (run (if negb (bool_decide (is_Some (session_state w1 !! "end_date")))
               then ts ← getitem data "Timestamp";
                    d ← date (series_max ts); session_set "end_date" d
               else mret ()) w1
          = (Return (), set_session (<["end_date" := e0]>) w1)) as ->.
  { unfold e0. rewrite <- Hend, <- set_session_default.
    destruct (negb _); [|done]. mstep. rewrite Hcol. lazy beta iota.
    by rewrite Hhi. }
  lazy beta iota.
  rewrite run_bind, (run_session_get "start_date" _ s0).
  2:{ unfold w1. cbn [set_session session_state].
      rewrite lookup_insert_ne by done. by rewrite lookup_insert_eq. }
  lazy beta iota. rewrite run_bind, run_st_date_input. lazy beta iota zeta.
  rewrite run_bind, (run_session_get "end_date" _ e0).
  2:{ unfold w1. cbn [set_session add_log set_log session_state].
      rewrite lookup_insert_ne by done. by rewrite lookup_insert_eq. }
  lazy beta iota. rewrite run_bind, run_st_date_input. lazy beta iota zeta.
  rewrite run_bind, run_session_set. lazy beta iota.
  rewrite run_bind, run_session_set. lazy beta iota. rewrite run_ret.
  unfold w1. destruct w as [t ss c l].
  unfold set_session, add_log, set_log. cbn [session_state now cache log].
  rewrite kept_range_normal, <- app_assoc. by rewrite !lookup_insert_ne.
Qed.


(** ** Fragments that only write to the trace *)

Lemma writes_ret {A} (a : A) : writes (mret a) (Return a) [].
Proof. intros w. by rewrite run_ret, add_log_nil. Qed.

Lemma writes_throw {A} (e : exn) : writes (mthrow e : M A) (Raise e) [].
Proof. intros w. by rewrite run_throw, add_log_nil. Qed.

Lemma writes_emit e : writes (emit e) (Return ()) [e].
Proof. intros w. apply run_emit. Qed.

Lemma writes_bind {A B} (m : M A) (f : A → M B) a e1 r e2 :
  writes m (Return a) e1 → writes (f a) r e2 → writes (m ≫= f) r (e1 ++ e2).
Proof. intros Hm Hf w. by rewrite run_bind, Hm, Hf, add_log_app. Qed.

Lemma writes_bind_raise {A B} (m : M A) (f : A → M B) e e1 :
  writes m (Raise e) e1 → writes (m ≫= f) (Raise e) e1.
Proof. intros Hm w. by rewrite run_bind, Hm. Qed.

Lemma writes_unit_events (u : M ()) evs :
  writes u (Return ()) evs → unit_events u = evs.
Proof. intros Hu. unfold unit_events. by rewrite Hu. Qed.

Lemma writes_inj {A} (m : M A) r1 r2 e1 e2 :
  writes m r1 e1 → writes m r2 e2 → r1 = r2 ∧ e1 = e2.
Proof.
  intros H1 H2. specialize (H1 blank). rewrite (H2 blank) in H1.
  injection H1 as -> Hlog. by split.
Qed.

Section writer_of.
Context (P : event → Prop).

Lemma writer_ret {A} (a : A) : writer_of P (mret a).
Proof. exists (Return a), []. split; [apply writes_ret | done]. Qed.

Lemma writer_throw {A} (e : exn) : writer_of P (mthrow e : M A).
Proof. exists (Raise e), []. split; [apply writes_throw | done]. Qed.

Lemma writer_emit e : P e → writer_of P (emit e).
Proof.
  intros He. exists (Return ()), [e]. split; [apply writes_emit|].
  by apply Forall_singleton.
Qed.

Lemma writer_bind {A B} (m : M A) (f : A → M B) :
  writer_of P m → (∀ a, writer_of P (f a)) → writer_of P (m ≫= f).
Proof.
  intros ([a|e] & e1 & Hm & H1) Hf.
  - destruct (Hf a) as (r & e2 & Hfa & H2). exists r, (e1 ++ e2).
    split; [by eapply writes_bind | by apply Forall_app].
  - exists (Raise e), e1. split; [by apply writes_bind_raise | done].
Qed.

(** After [df[col]] the script goes on with the whole column. *)
Lemma writer_bind_getitem {B} df col (f : Series → M B) :
  (has_column df col = true → writer_of P (f (column df col))) →
  writer_of P (getitem df col ≫= f).
Proof.
  intros Hf. unfold getitem. destruct (has_column df col).
  - destruct Hf as (r & evs & Hw & Hevs); [done|]. exists r, evs. split; [|done].
    intros w. by rewrite run_bind, run_ret.
  - exists (Raise (KeyError col)), []. split; [|done].
    apply writes_bind_raise, writes_throw.
Qed.

Lemma writer_getitems df cols : writer_of P (getitems df cols).
Proof. unfold getitems. destruct (List.filter _ cols); [apply writer_ret | apply writer_throw]. Qed.

Lemma writer_lib c : P (Lib c) → writer_of P (lib c).
Proof.
  intros Hc. unfold lib. apply writer_bind; [by apply writer_emit|]. intros _.
  destruct (raises (Lib c)); [apply writer_throw | apply writer_ret].
Qed.

Lemma writer_display e : P (St e) → writer_of P (display e).
Proof.
  intros He. unfold display.
  destruct (raises (St e)); [apply writer_throw | by apply writer_emit].
Qed.

(** A unit of the shape [heading; try: body; except: message]: it returns
    in every world, whatever the body does, and adds its heading, the
    events of the body and, when the body raised, its one message. *)
Lemma unit_writes title failure (body : M ()) :
  writer_of P body →
  ∃ evs built,
    writes (st_subheader title;;
            try_except body (λ e, st_error (failure +:+ str e))) (Return ()) evs
    ∧ Forall P built
    ∧ (unit_shape title built None evs
       ∨ ∃ e, unit_shape title built (Some (failure +:+ str e)) evs).
Proof.
  intros ([[]|e] & built & Hbody & Hclean).
  - exists (St (StSubheader title) :: built), built. split; [|split; [done|]].
    + intros w. unfold st_subheader. rewrite run_bind, run_emit. lazy beta iota.
      by rewrite run_try_except, Hbody, add_log_app.
    + left. unfold unit_shape. cbn [from_option]. by rewrite app_nil_r.
  - exists (St (StSubheader title) :: built ++ [St (StError (failure +:+ str e))]), built.
    split; [|split; [done|]].
    + intros w. unfold st_subheader, st_error. rewrite run_bind, run_emit. lazy beta iota.
      by rewrite run_try_except, Hbody, run_emit, !add_log_app.
    + right. by exists e.
Qed.


End writer_of.

Ltac writer_steps :=
  repeat first
    [ apply writer_ret | apply writer_throw | apply writer_getitems
    | apply writer_bind_getitem; intros ?
    | apply writer_lib | apply writer_display | apply writer_emit
    | apply writer_bind; [|intros ?] ].

Lemma fan_humidifier_try_writer filtered_data :
  writer_of (λ e, is_st_error e = false) (fan_humidifier_try filtered_data).
Proof. unfold fan_humidifier_try. writer_steps; reflexivity. Qed.

Lemma led_try_writer filtered_data :
  writer_of (λ e, is_st_error e = false) (led_try filtered_data).
Proof.
  unfold led_try.
  destruct (has_column filtered_data "LED Brightness"); unfold st_warning;
    writer_steps; reflexivity.
Qed.

Lemma line_panel_try_writer data title col1 label1 col2 label2 :
  writer_of (λ e, is_st_error e = false)
    (line_panel_try data title col1 label1 col2 label2).
Proof. unfold line_panel_try. writer_steps; reflexivity. Qed.

Lemma unit_reported title failure (body : M ()) :
  writer_of (λ e, is_st_error e = false) body →
  ∃ evs,
    writes (st_subheader title;;
            try_except body (λ e, st_error (failure +:+ str e))) (Return ()) evs
    ∧ reported title failure evs.
Proof.
  intros Hbody.
  destruct (unit_writes _ title failure body Hbody) as (evs & built & Hw & Hb & Hs).
  exists evs. split; [done|]. by exists built.
Qed.

Lemma fan_humidifier_chart_reported filtered_data :
  ∃ evs, writes (fan_humidifier_chart filtered_data) (Return ()) evs
         ∧ reported "Fan and Humidifier States Over Time"
                    "Error creating Fan and Humidifier plot: " evs.
Proof. apply unit_reported, fan_humidifier_try_writer. Qed.

Lemma led_chart_reported filtered_data :
  ∃ evs, writes (led_chart filtered_data) (Return ()) evs
         ∧ reported "LED State Distribution"
                    "Error creating LED distribution chart: " evs.
Proof. apply unit_reported, led_try_writer. Qed.

Lemma line_panel_reported data title failure col1 label1 col2 label2 :
  ∃ evs, writes (line_panel data title failure col1 label1 col2 label2) (Return ()) evs
         ∧ reported title failure evs.
Proof. apply unit_reported, line_panel_try_writer. Qed.


Lemma over_columns_intro data col :
  over_columns data (column data "Timestamp") (column data col).
Proof. unfold over_columns, column. rewrite !length_map. eauto. Qed.

(** The events of a time-series panel: reported as for every unit, and
    every line it plots or draws runs over whole columns of its table. *)
Lemma line_panel_writes data title failure col1 label1 col2 label2 :
  ∃ evs, writes (line_panel data title failure col1 label1 col2 label2) (Return ()) evs
         ∧ reported title failure evs
         ∧ Forall (plots_over data) evs.
Proof.
  destruct (unit_writes (λ e, is_st_error e = false ∧ plots_over data e)
              title failure
              (lib PltFigure;;
               x1 ← getitem data "Timestamp";
               y1 ← getitem data col1;
               lib (PltPlot x1 y1 label1);;
               x2 ← getitem data "Timestamp";
               y2 ← getitem data col2;
               lib (PltPlot x2 y2 label2);;
               lib (PltDecorate title);;
               display (StPyplot (LineFigure title [(x1, y1, label1); (x2, y2, label2)]))))
    as (evs & built & Hw & Hbuilt & Hshape).
  { writer_steps; (split; [reflexivity|]); cbn [plots_over]; try done;
      repeat apply Forall_cons_2; try apply Forall_nil_2; apply over_columns_intro. }
  exists evs. split; [exact Hw|]. apply Forall_and in Hbuilt as [Hclean Hplots]. split.
  - by exists built.
  - destruct Hshape as [->|[e ->]]; unfold unit_shape; cbn [from_option];
      apply Forall_cons_2; try done; apply Forall_app; by split;
      [|repeat constructor].
Qed.

(** A panel when no call fails and the table has the columns. *)
Lemma line_panel_drawn data title failure col1 label1 col2 label2 :
  (∀ e, raises e = None) →
  has_column data "Timestamp" = true →
  has_column data col1 = true →
  has_column data col2 = true →
  let x := column data "Timestamp" in
  writes (line_panel data title failure col1 label1 col2 label2) (Return ())
    [St (StSubheader title); Lib PltFigure;
     Lib (PltPlot x (column data col1) label1);
     Lib (PltPlot x (column data col2) label2);
     Lib (PltDecorate title);
     St (StPyplot (LineFigure title [(x, column data col1, label1);
                                     (x, column data col2, label2)]))].
Proof.
  intros Hok Hts H1 H2 x w. unfold line_panel, line_panel_try, lib, display.
  mstep. rewrite !Hok. mstep. rewrite Hts. mstep. rewrite H1. mstep.
  rewrite !Hok. mstep. rewrite Hts. mstep. rewrite H2. mstep. rewrite !Hok. by mstep.
Qed.

(** ** A render pass *)

Lemma run_show_filtered_data_empty data w :
  empty data = true →
  run (show_filtered_data data) w =
  (Return (),
   add_log [St (StSubheader "Filter Data by Date Range");
            St (StError "No data loaded. Please check your Google Sheets link or data format.")]
     w).
Proof. intros Hempty. unfold show_filtered_data. mstep. rewrite Hempty. by mstep. Qed.

Lemma run_show_filtered_data_loaded data w :
  loaded data →
  empty data = false →
  let range := selected_range data (session_state w) in
  let filtered_data := rows_in_range data range.1 range.2 in
  let w1 :=
    add_log [St (StSubheader "Filter Data by Date Range");
             St (StDateInput "Start Date" range.1 "start_date_input");
             St (StDateInput "End Date" range.2 "end_date_input")]
      (set_session (kept_range range.1 range.2) w) in
  run (show_filtered_data data) w =
  if empty filtered_data
  then (Return (),
        add_log [St (StWarning "No data available for the selected date range.")] w1)
  else run (fan_humidifier_chart filtered_data;; led_chart filtered_data)
         (add_log [St (StWrite filtered_data)] w1).
Proof.
  intros Hloaded Hne range filtered_data w1.
  destruct (loaded_nonempty data Hloaded Hne) as [Hcols Hts].
  assert (has_column data "Timestamp" = true) as Hcol
    by (apply Hcols, list_elem_of_here).
  assert (column data "Timestamp" ≠ []) as Hrows.
  { unfold empty in Hne. apply orb_false_iff in Hne as [_ Hr].
    apply bool_decide_eq_false in Hr. unfold column. by destruct (rows data). }
  assert (∀ c, c ∈ column data "Timestamp" → ∃ ns, c = Datetime ns) as Hdt.
  { intros c (r & -> & Hr)%list_elem_of_fmap. by apply Hts. }
  destruct (series_min_is_Some _ Hrows Hdt) as [lo Hlo].
  destruct (series_max_is_Some _ Hrows Hdt) as [hi Hhi].
  unfold show_filtered_data. mstep. rewrite Hne.
  rewrite run_bind, (run_date_range data _ lo hi Hcol Hlo Hhi).
  cbn [add_log set_log session_state]. fold range.
  destruct range as [start_date end_date] eqn:Hrange. lazy beta iota.
  rewrite run_bind, run_filter_by_date by done. lazy beta iota.
  cbn [fst snd] in *. fold filtered_data.
  destruct (empty filtered_data).
  - mstep. unfold w1, add_log, set_log, set_session. cbn. by rewrite <- !app_assoc.
  - mstep. unfold w1, add_log, set_log, set_session. cbn. by rewrite <- !app_assoc.
Qed.


Lemma run_main w data w1 :
  run load_data w = (Return data, w1) →
  run main w =
  match run (show_filtered_data data) w1 with
  | (Return _, w2) => run (show_temp_humidity data;; show_soil_light data) w2
  | (Raise e, w2) => (Raise e, w2)
  end.
Proof. intros Hload. unfold main. by rewrite run_bind, Hload, run_bind. Qed.

(** What the loader returns from a sound cache is a loaded table, and the
    cache stays sound. *)
Lemma load_data_loaded w data w1 :
  cache_ok w →
  run load_data w = (Return data, w1) →
  loaded data ∧ cache_ok w1 ∧ session_state w1 = session_state w.
Proof.
  intros Hok Hrun.
  assert (loaded (load_value (read_csv spreadsheet_url (now w)))) as Hfresh.
  { exists w. eexists. apply run_load_data_body. }
  destruct (cache w) as [c|] eqn:Hc.
  - destruct (decide (now w < stored_at c + cache_ttl)) as [Hlive|Hdead].
    + rewrite (run_load_data_hit w c Hc Hlive) in Hrun. injection Hrun as <- <-.
      split; [by apply Hok|]. split; [|done]. intros c'. cbn. rewrite Hc.
      intros [= <-]. by apply Hok.
    + rewrite run_load_data_miss in Hrun by (rewrite Hc; lia).
      injection Hrun as <- <-. split; [done|]. split; [|done].
      intros c'. cbn. by intros [= <-].
  - rewrite run_load_data_miss in Hrun by (by rewrite Hc).
    injection Hrun as <- <-. split; [done|]. split; [|done].
    intros c'. cbn. by intros [= <-].
Qed.

(** The two panels after the filtered views, in any world. *)
Lemma run_time_series data e3 e4 w :
  writes (show_temp_humidity data) (Return ()) e3 →
  writes (show_soil_light data) (Return ()) e4 →
  run (show_temp_humidity data;; show_soil_light data) w
  = (Return (), add_log (e3 ++ e4) w).
Proof. intros H3 H4. by apply (writes_bind _ _ () e3 (Return ()) e4). Qed.


(** Each of the four presentation units returns normally in every world,
    whatever its plotting and display calls do, and adds its heading, the
    events of building it, and, when building it raised, one message. *)
Lemma units_reported filtered_data data :
  ∃ e1 e2 e3 e4,
    (writes (fan_humidifier_chart filtered_data) (Return ()) e1
     ∧ reported "Fan and Humidifier States Over Time"
                "Error creating Fan and Humidifier plot: " e1)
    ∧ (writes (led_chart filtered_data) (Return ()) e2
       ∧ reported "LED State Distribution"
                  "Error creating LED distribution chart: " e2)
    ∧ (writes (show_temp_humidity data) (Return ()) e3
       ∧ reported "Temperature and Humidity Over Time"
                  "Error plotting Temperature and Humidity: " e3
       ∧ Forall (plots_over data) e3)
    ∧ (writes (show_soil_light data) (Return ()) e4
       ∧ reported "Soil Moisture and Light Intensity Over Time"
                  "Error plotting Soil Moisture and Light Intensity: " e4
       ∧ Forall (plots_over data) e4).
Proof.
  destruct (fan_humidifier_chart_reported filtered_data) as (e1 & Hw1 & Hr1).
  destruct (led_chart_reported filtered_data) as (e2 & Hw2 & Hr2).
  destruct (line_panel_writes data "Temperature and Humidity Over Time"
              "Error plotting Temperature and Humidity: "
              "Temperature" "Temperature (°C)" "Humidity" "Humidity (%)")
    as (e3 & Hw3 & Hr3 & Hp3).
  destruct (line_panel_writes data "Soil Moisture and Light Intensity Over Time"
              "Error plotting Soil Moisture and Light Intensity: "
              "Soil Moisture" "Soil Moisture (raw)" "Light Intensity" "Light Intensity (lux)")
    as (e4 & Hw4 & Hr4 & Hp4).
  by exists e1, e2, e3, e4.
Qed.


(** C7, amended.  For a loaded table that is not empty and a range whose
    start lies after its end, or in which no row of the table lies, the
    filter returns a table without rows, the renderer shows the notice
    for an empty range after the two pickers and returns; the filtered
    views make no chart call, and the pass goes on with the two
    time-series panels and ends normally. *)
Theorem empty_range_notice w data w1 start_date end_date :
  cache_ok w →
  run load_data w = (Return data, w1) →
  empty data = false →
  selected_range data (session_state w1) = (start_date, end_date) →
  (end_date < start_date ∨
   ∀ r ns, r ∈ rows data → at_col "Timestamp" r = Datetime ns →
           ¬ (start_date ≤ date_of ns ∧ date_of ns ≤ end_date)) →
  let views := [St (StSubheader "Filter Data by Date Range");
                St (StDateInput "Start Date" start_date "start_date_input");
                St (StDateInput "End Date" end_date "end_date_input");
                St (StWarning "No data available for the selected date range.")] in
  run (filter_by_date data start_date end_date) w1
    = (Return {| columns := columns data; rows := [] |}, w1)
  ∧ run (show_filtered_data data) w1
    = (Return (), add_log views (set_session (kept_range start_date end_date) w1))
  ∧ Forall (λ e, is_chart_call e = false) views
  ∧ ∃ e3 e4,
      writes (show_temp_humidity data) (Return ()) e3
      ∧ writes (show_soil_light data) (Return ()) e4
      ∧ run main w
        = (Return (), add_log (views ++ e3 ++ e4)
                        (set_session (kept_range start_date end_date) w1)).
Proof.
  intros Hok Hload Hne Hrange Hout views.
  destruct (load_data_loaded w data w1 Hok Hload) as [Hloaded _].
  assert (List.filter (in_range start_date end_date) (rows data) = []) as Hnone.
  { induction (rows data) as [|r rs IH]; [done|]. cbn [List.filter].
    destruct (in_range start_date end_date r) eqn:Hin.
    - exfalso. apply in_range_spec in Hin as (ns & Hns & Hs & He).
      destruct Hout as [Hlt|Hno]; [lia|].
      apply (Hno r ns); [apply list_elem_of_here | done | done].
    - apply IH. destruct Hout as [Hlt|Hno]; [by left|]. right.
      intros r' ns' Hr'. apply Hno. by apply list_elem_of_further. }
  assert (run (show_filtered_data data) w1
          = (Return (), add_log views (set_session (kept_range start_date end_date) w1)))
    as Hshow.
  { rewrite (run_show_filtered_data_loaded data w1 Hloaded Hne), Hrange.
    cbn [fst snd]. unfold rows_in_range, empty. cbn [rows columns]. rewrite Hnone.
    rewrite (bool_decide_eq_true_2 ([] = [])) by done. rewrite orb_true_r.
    by rewrite add_log_app. }
  split; [|split; [done|split]].
  - destruct (loaded_nonempty data Hloaded Hne) as [Hcols Hts].
    rewrite run_filter_by_date; [|apply Hcols, list_elem_of_here|done].
    unfold rows_in_range. by rewrite Hnone.
  - unfold views. by repeat constructor.
  - destruct (units_reported data data)
      as (_ & _ & e3 & e4 & _ & _ & (Hw3 & _) & (Hw4 & _)).
    exists e3, e4. split; [done|]. split; [done|].
    rewrite (run_main w data w1 Hload), Hshow.
    rewrite (run_time_series data e3 e4) by done.
    by rewrite add_log_app.
Qed.


(** The filtered views make no matplotlib call. *)
Lemma filtered_views_no_plot filtered_data :
  ∃ e1 e2,
    writes (fan_humidifier_chart filtered_data) (Return ()) e1
    ∧ writes (led_chart filtered_data) (Return ()) e2
    ∧ Forall (λ e, is_plot e = false) (e1 ++ e2).
Proof.
  destruct (unit_writes (λ e, is_plot e = false)
              "Fan and Humidifier States Over Time"
              "Error creating Fan and Humidifier plot: "
              (sel ← getitems filtered_data ["Timestamp"; "Fan State"; "Humidifier State"];
               lib (PxBar (melt sel ["Fan State"; "Humidifier State"]));;
               lib (UpdateLayout (BarFigure (melt sel ["Fan State"; "Humidifier State"])));;
               display (StPlotlyChart
                          (BarFigure (melt sel ["Fan State"; "Humidifier State"])))))
    as (e1 & b1 & Hw1 & Hb1 & Hs1).
  { writer_steps; reflexivity. }
  destruct (unit_writes (λ e, is_plot e = false)
              "LED State Distribution"
              "Error creating LED distribution chart: "
              (if has_column filtered_data "LED Brightness" then
                 led ← getitem filtered_data "LED Brightness";
                 lib (PxPie (value_counts led).*2 (value_counts led).*1);;
                 lib (UpdateTraces (PieFigure (value_counts led).*2 (value_counts led).*1));;
                 lib (UpdateLayout (PieFigure (value_counts led).*2 (value_counts led).*1));;
                 display (StPlotlyChart
                            (PieFigure (value_counts led).*2 (value_counts led).*1))
               else
                 st_warning "The column 'LED Brightness' is missing from the data."))
    as (e2 & b2 & Hw2 & Hb2 & Hs2).
  { destruct (has_column filtered_data "LED Brightness"); unfold st_warning;
      writer_steps; reflexivity. }
  exists e1, e2. split; [exact Hw1|]. split; [exact Hw2|].
  apply Forall_app. split.
  - destruct Hs1 as [->|[e ->]]; unfold unit_shape; cbn [from_option];
      apply Forall_cons_2; try done; apply Forall_app; by split; [|repeat constructor].
  - destruct Hs2 as [->|[e ->]]; unfold unit_shape; cbn [from_option];
      apply Forall_cons_2; try done; apply Forall_app; by split; [|repeat constructor].
Qed.

(** On an empty table the default range is undefined: the column is not
    there, or its minimum is [NaT]. *)
Lemma date_range_undefined data w :
  empty data = true →
  session_state w !! "start_date" = None →
  ∃ e w', run (date_range data) w = (Raise e, w').
Proof.
  intros Hempty Hnone. unfold date_range.
  rewrite run_bind, run_session_has, Hnone. lazy beta iota.
  rewrite bool_decide_eq_false_2 by (by intros [? ?]). cbn [negb].
  mstep. destruct (has_column data "Timestamp") eqn:Hcol; [|by eauto].
  assert (rows data = []) as Hrows.
  { unfold empty in Hempty. apply orb_true_iff in Hempty as [Hc|Hr].
    - apply bool_decide_eq_true in Hc. unfold has_column in Hcol.
      apply bool_decide_eq_true in Hcol. rewrite Hc in Hcol.
      by apply elem_of_nil in Hcol.
    - by apply bool_decide_eq_true in Hr. }
  unfold column. rewrite Hrows. cbn [map series_min foldr date]. mstep. eauto.
Qed.

(** C9.  In every render pass, whatever range the session selects, the
    two time-series panels run on the table the loader returned: every
    line they plot or draw has the whole time column of that table as its
    axis and a whole column of it as its values, one value per row of the
    loaded table; the filtered views before them plot no line.  When no
    call fails and the table is not empty, the panels are the four lines
    over all rows. *)
Theorem time_series_over_full_table w data w1 :
  cache_ok w →
  run load_data w = (Return data, w1) →
  ∃ w' views e3 e4,
    run main w = (Return (), w')
    ∧ log w' = log w1 ++ views ++ e3 ++ e4
    ∧ writes (show_temp_humidity data) (Return ()) e3
    ∧ writes (show_soil_light data) (Return ()) e4
    ∧ Forall (plots_over data) (e3 ++ e4)
    ∧ Forall (λ e, is_plot e = false) views
    ∧ ((∀ e, raises e = None) → empty data = false →
       let x := column data "Timestamp" in
       e3 = [St (StSubheader "Temperature and Humidity Over Time"); Lib PltFigure;
             Lib (PltPlot x (column data "Temperature") "Temperature (°C)");
             Lib (PltPlot x (column data "Humidity") "Humidity (%)");
             Lib (PltDecorate "Temperature and Humidity Over Time");
             St (StPyplot (LineFigure "Temperature and Humidity Over Time"
                             [(x, column data "Temperature", "Temperature (°C)");
                              (x, column data "Humidity", "Humidity (%)")]))]
       ∧ e4 = [St (StSubheader "Soil Moisture and Light Intensity Over Time"); Lib PltFigure;
               Lib (PltPlot x (column data "Soil Moisture") "Soil Moisture (raw)");
               Lib (PltPlot x (column data "Light Intensity") "Light Intensity (lux)");
               Lib (PltDecorate "Soil Moisture and Light Intensity Over Time");
               St (StPyplot (LineFigure "Soil Moisture and Light Intensity Over Time"
                               [(x, column data "Soil Moisture", "Soil Moisture (raw)");
                                (x, column data "Light Intensity", "Light Intensity (lux)")]))]).
Proof.
  intros Hok Hload.
  destruct (load_data_loaded w data w1 Hok Hload) as [Hloaded _].
  destruct (units_reported data data)
    as (_ & _ & e3 & e4 & _ & _ & (Hw3 & _ & Hp3) & (Hw4 & _ & Hp4)).
  assert (∃ w2 views, run (show_filtered_data data) w1 = (Return (), w2)
                      ∧ log w2 = log w1 ++ views
                      ∧ Forall (λ e, is_plot e = false) views)
    as (w2 & views & Hshow & Hlog & Hviews).
  { destruct (empty data) eqn:Hempty.
    - rewrite run_show_filtered_data_empty by done.
      eexists _, [St (StSubheader "Filter Data by Date Range");
                  St (StError "No data loaded. Please check your Google Sheets link or data format.")].
      split; [done|]. split; [done|]. by repeat constructor.
    - rewrite (run_show_filtered_data_loaded data w1 Hloaded Hempty).
      set (range := selected_range data (session_state w1)).
      set (filtered_data := rows_in_range data range.1 range.2).
      destruct (empty filtered_data).
      + eexists _, ([St (StSubheader "Filter Data by Date Range");
                     St (StDateInput "Start Date" range.1 "start_date_input");
                     St (StDateInput "End Date" range.2 "end_date_input")]
                    ++ [St (StWarning "No data available for the selected date range.")]).
        split; [done|]. split.
        * cbn [add_log set_log set_session log]. by rewrite <- app_assoc.
        * by repeat constructor.
      + destruct (filtered_views_no_plot filtered_data) as (e1 & e2 & Hw1 & Hw2 & Hno).
        rewrite (writes_bind _ _ () e1 (Return ()) e2 Hw1 Hw2).
        eexists _, ([St (StSubheader "Filter Data by Date Range");
                     St (StDateInput "Start Date" range.1 "start_date_input");
                     St (StDateInput "End Date" range.2 "end_date_input")]
                    ++ [St (StWrite filtered_data)] ++ e1 ++ e2).
        split; [done|]. split.
        * cbn [add_log set_log set_session log]. by rewrite <- !app_assoc.
        * apply Forall_app. split; [by repeat constructor|].
          apply Forall_app. split; [by repeat constructor | done]. }
  exists (add_log (e3 ++ e4) w2), views, e3, e4.
  split; [|split; [|split; [done|split; [done|split; [|split; [done|]]]]]].
  - rewrite (run_main w data w1 Hload), Hshow. by apply run_time_series.
  - cbn [add_log set_log log]. by rewrite Hlog, <- app_assoc.
  - by apply Forall_app.
  - intros Hnone Hne x.
    destruct (loaded_nonempty data Hloaded Hne) as [Hcols _].
    split.
    + apply (writes_inj (show_temp_humidity data) (Return ()) (Return ())); [done|].
      apply (line_panel_drawn data "Temperature and Humidity Over Time"
               "Error plotting Temperature and Humidity: "
               "Temperature" "Temperature (°C)" "Humidity" "Humidity (%)" Hnone).
      * apply Hcols. apply (bool_decide_unpack _). vm_compute. exact I.
      * apply Hcols. apply (bool_decide_unpack _). vm_compute. exact I.
      * apply Hcols. apply (bool_decide_unpack _). vm_compute. exact I.
    + apply (writes_inj (show_soil_light data) (Return ()) (Return ())); [done|].
      apply (line_panel_drawn data "Soil Moisture and Light Intensity Over Time"
               "Error plotting Soil Moisture and Light Intensity: "
               "Soil Moisture" "Soil Moisture (raw)" "Light Intensity" "Light Intensity (lux)"
               Hnone).
      * apply Hcols. apply (bool_decide_unpack _). vm_compute. exact I.
      * apply Hcols. apply (bool_decide_unpack _). vm_compute. exact I.
      * apply Hcols. apply (bool_decide_unpack _). vm_compute. exact I.
Qed.

(** C10.  In a render pass in which the loader returns an empty table, the
    renderer shows the no-data message right after its heading and
    returns: no date picker, no stored range, no filtered view.  The
    default range is not computed, which on an empty table would raise.
    The two time-series panels still run, on that empty table, each
    reporting for itself, and the pass ends normally. *)
Theorem empty_table_pass w data w1 :
  run load_data w = (Return data, w1) →
  empty data = true →
  let notice :=
    [St (StSubheader "Filter Data by Date Range");
     St (StError "No data loaded. Please check your Google Sheets link or data format.")] in
  ∃ e3 e4,
    run (show_filtered_data data) w1 = (Return (), add_log notice w1)
    ∧ (writes (show_temp_humidity data) (Return ()) e3
       ∧ reported "Temperature and Humidity Over Time"
                  "Error plotting Temperature and Humidity: " e3)
    ∧ (writes (show_soil_light data) (Return ()) e4
       ∧ reported "Soil Moisture and Light Intensity Over Time"
                  "Error plotting Soil Moisture and Light Intensity: " e4)
    ∧ run main w = (Return (), add_log (notice ++ e3 ++ e4) w1)
    ∧ (∀ w2, session_state w2 !! "start_date" = None →
             ∃ e w3, run (date_range data) w2 = (Raise e, w3)).
Proof.
  intros Hload Hempty notice.
  destruct (units_reported data data)
    as (_ & _ & e3 & e4 & _ & _ & (Hw3 & Hr3 & _) & (Hw4 & Hr4 & _)).
  exists e3, e4. split; [by apply run_show_filtered_data_empty|].
  split; [done|]. split; [done|]. split.
  - rewrite (run_main w data w1 Hload), run_show_filtered_data_empty by done.
    rewrite (run_time_series data e3 e4) by done. by rewrite add_log_app.
  - intros w2. by apply date_range_undefined.
Qed.

Lemma notna_isna_length (s : Series) :
  (length (List.filter notna s) + length (List.filter isna s))%nat = length s.
Proof.
  unfold notna. induction s as [|c s IH]; [done|]. cbn [List.filter].
  destruct (isna c); cbn [negb length]; lia.
Qed.

(** C3, amended.  The counts of the LED chart add up to the number of rows
    of the filtered table whose LED value is not missing: every such
    value is counted once, under the one entry of its value, and a
    missing value is counted nowhere.  Counts and missing values together
    make the row count. *)
Theorem led_counts_sum filtered_data :
  let led := column filtered_data "LED Brightness" in
  let led_count := value_counts led in
  sum_list led_count.*2 = length (List.filter notna led)
  ∧ (sum_list led_count.*2 + length (List.filter isna led))%nat
    = length (rows filtered_data)
  ∧ NoDup led_count.*1
  ∧ (∀ v n, (v, n) ∈ led_count ↔
            notna v = true ∧ v ∈ led ∧ n = count_occ cell_eq_dec led v).
Proof.
  intros led led_count. split; [apply value_counts_total|].
  split; [|split; [apply value_counts_NoDup | apply value_counts_elem]].
  unfold led_count. rewrite value_counts_total, notna_isna_length.
  unfold led, column. apply length_map.
Qed.


(** ** Further properties: the range and the filter *)

Lemma series_min_cons c s :
  series_min (c :: s) =
  match c, series_min s with
  | Datetime ns, Some m => Some (Z.min ns m)
  | Datetime ns, None => Some ns
  | _, acc => acc
  end.
Proof. reflexivity. Qed.

Lemma series_max_cons c s :
  series_max (c :: s) =
  match c, series_max s with
  | Datetime ns, Some m => Some (Z.max ns m)
  | Datetime ns, None => Some ns
  | _, acc => acc
  end.
Proof. reflexivity. Qed.

Lemma series_min_bound s ns :
  Datetime ns ∈ s → ∃ lo, series_min s = Some lo ∧ lo ≤ ns.
Proof.
  induction s as [|c s IH]; intros Hin; [by apply elem_of_nil in Hin|].
  rewrite series_min_cons. apply elem_of_cons in Hin as [<-|Hin].
  - destruct (series_min s) as [m|]; eexists; split; [done|lia|done|lia].
  - destruct (IH Hin) as (m & -> & Hm).
    destruct c; eexists; split; try done; lia.
Qed.

Lemma series_max_bound s ns :
  Datetime ns ∈ s → ∃ hi, series_max s = Some hi ∧ ns ≤ hi.
Proof.
  induction s as [|c s IH]; intros Hin; [by apply elem_of_nil in Hin|].
  rewrite series_max_cons. apply elem_of_cons in Hin as [<-|Hin].
  - destruct (series_max s) as [m|]; eexists; split; [done|lia|done|lia].
  - destruct (IH Hin) as (m & -> & Hm).
    destruct c; eexists; split; try done; lia.
Qed.

Lemma series_min_lower s lo ns :
  series_min s = Some lo → Datetime ns ∈ s → lo ≤ ns.
Proof.
  intros Hmin Hin. destruct (series_min_bound s ns Hin) as (m & Hm & Hle).
  rewrite Hmin in Hm. by injection Hm as ->.
Qed.

Lemma series_max_upper s hi ns :
  series_max s = Some hi → Datetime ns ∈ s → ns ≤ hi.
Proof.
  intros Hmax Hin. destruct (series_max_bound s ns Hin) as (m & Hm & Hle).
  rewrite Hmax in Hm. by injection Hm as ->.
Qed.

Lemma date_of_mono a b : a ≤ b → date_of a ≤ date_of b.
Proof. intros Hab. unfold date_of, ns_per_day. apply Z.div_le_mono; lia. Qed.

Lemma filter_all {A} (p : A → bool) (l : list A) :
  (∀ x, x ∈ l → p x = true) → List.filter p l = l.
Proof.
  induction l as [|x l IH]; intros Hall; [done|]. cbn [List.filter].
  rewrite (Hall x) by apply list_elem_of_here. f_equal. apply IH.
  intros y Hy. by apply Hall, list_elem_of_further.
Qed.

Lemma nonempty_column data :
  empty data = false → column data "Timestamp" ≠ [].
Proof.
  intros Hne. unfold empty in Hne. apply orb_false_iff in Hne as [_ Hr].
  apply bool_decide_eq_false in Hr. unfold column. by destruct (rows data).
Qed.

Lemma loaded_min_max data :
  loaded data → empty data = false →
  ∃ lo hi, series_min (column data "Timestamp") = Some lo
           ∧ series_max (column data "Timestamp") = Some hi.
Proof.
  intros Hloaded Hne. destruct (loaded_nonempty data Hloaded Hne) as [_ Hts].
  assert (∀ c, c ∈ column data "Timestamp" → ∃ ns, c = Datetime ns) as Hdt.
  { intros c (r & -> & Hr)%list_elem_of_fmap. by apply Hts. }
  destruct (series_min_is_Some _ (nonempty_column data Hne) Hdt) as [lo Hlo].
  destruct (series_max_is_Some _ (nonempty_column data Hne) Hdt) as [hi Hhi].
  by exists lo, hi.
Qed.

(** X1.  On the first display of a session (no date kept, no picker
    touched) of a loaded table that is not empty, the two pickers show the
    day of the earliest and of the latest reading, every row lies in that
    range, and the table view and the charts are built on the whole
    table. *)
Theorem default_range_shows_all data w :
  loaded data →
  empty data = false →
  session_state w !! "start_date" = None →
  session_state w !! "end_date" = None →
  session_state w !! "start_date_input" = None →
  session_state w !! "end_date_input" = None →
  ∃ lo hi,
    series_min (column data "Timestamp") = Some lo
    ∧ series_max (column data "Timestamp") = Some hi
    ∧ selected_range data (session_state w) = (date_of lo, date_of hi)
    ∧ rows_in_range data (date_of lo) (date_of hi) = data
    ∧ run (show_filtered_data data) w =
      run (fan_humidifier_chart data;; led_chart data)
        (add_log [St (StSubheader "Filter Data by Date Range");
                  St (StDateInput "Start Date" (date_of lo) "start_date_input");
                  St (StDateInput "End Date" (date_of hi) "end_date_input");
                  St (StWrite data)]
           (set_session (kept_range (date_of lo) (date_of hi)) w)).
Proof.
  intros Hloaded Hne Hs He Hsi Hei.
  destruct (loaded_min_max data Hloaded Hne) as (lo & hi & Hlo & Hhi).
  destruct (loaded_nonempty data Hloaded Hne) as [_ Hts].
  assert (selected_range data (session_state w) = (date_of lo, date_of hi)) as Hrange.
  { unfold selected_range, picked. by rewrite Hlo, Hhi, Hs, He, Hsi, Hei. }
  assert (rows_in_range data (date_of lo) (date_of hi) = data) as Hall.
  { unfold rows_in_range. destruct data as [cols rs]. cbn [columns rows] in *.
    f_equal. apply filter_all. intros r Hr. destruct (Hts r Hr) as [ns Hns].
    apply in_range_spec. exists ns. split; [done|].
    assert (Datetime ns ∈ column {| columns := cols; rows := rs |} "Timestamp") as Hin.
    { unfold column. cbn [rows]. apply list_elem_of_fmap. by exists r. }
    split; apply date_of_mono;
      [by eapply series_min_lower | by eapply series_max_upper]. }
  exists lo, hi. split; [done|]. split; [done|]. split; [done|]. split; [done|].
  rewrite (run_show_filtered_data_loaded data w Hloaded Hne), Hrange.
  cbn [fst snd]. rewrite Hall, Hne. by rewrite add_log_app.
Qed.


Lemma kept_range_idem start_date end_date (ss : gmap string Z) :
  kept_range start_date end_date (kept_range start_date end_date ss)
  = kept_range start_date end_date ss.
Proof.
  unfold kept_range. apply map_eq. intros k.
  rewrite !lookup_insert. by repeat case_decide.
Qed.

Lemma selected_range_kept data start_date end_date (ss : gmap string Z) :
  selected_range data (kept_range start_date end_date ss) = (start_date, end_date).
Proof.
  unfold selected_range, picked, kept_range.
  rewrite !lookup_insert. by repeat case_decide.
Qed.

(** X2.  The range of one pass is the range of the next: once the pickers
    returned a range for a loaded table, a following pass, on the same or
    on a freshly loaded table, gets the same range from them, whatever
    the days of the new table are, and leaves the session as it is. *)
Theorem selected_range_persists data data' w :
  loaded data →
  empty data = false →
  loaded data' →
  empty data' = false →
  let range := selected_range data (session_state w) in
  let pickers := [St (StDateInput "Start Date" range.1 "start_date_input");
                  St (StDateInput "End Date" range.2 "end_date_input")] in
  ∃ w1,
    run (date_range data) w = (Return range, w1)
    ∧ session_state w1 = kept_range range.1 range.2 (session_state w)
    ∧ run (date_range data') w1 = (Return range, add_log pickers w1).
Proof.
  intros Hloaded Hne Hloaded' Hne' range pickers.
  destruct (loaded_min_max data Hloaded Hne) as (lo & hi & Hlo & Hhi).
  destruct (loaded_min_max data' Hloaded' Hne') as (lo' & hi' & Hlo' & Hhi').
  assert (∀ d, loaded d → empty d = false → has_column d "Timestamp" = true) as Hcol.
  { intros d Hd Hn. destruct (loaded_nonempty d Hd Hn) as [Hcols _].
    apply Hcols, list_elem_of_here. }
  eexists. split; [apply (run_date_range data w lo hi); by auto|].
  fold range. split; [done|].
  rewrite (run_date_range data' _ lo' hi') by auto.
  cbn [add_log set_log set_session session_state].
  rewrite selected_range_kept. cbn [fst snd]. unfold pickers.
  destruct range as [s e], w as [t ss c l].
  unfold add_log, set_log, set_session. cbn [fst snd now session_state cache log].
  by rewrite kept_range_idem.
Qed.

Lemma in_range_both s1 e1 s2 e2 r :
  in_range s1 e1 r && in_range s2 e2 r = in_range (Z.max s1 s2) (Z.min e1 e2) r.
Proof.
  unfold in_range. destruct (at_col "Timestamp" r) as [| | | | |ns]; try done.
  apply eq_true_iff_eq.
  rewrite !andb_true_iff, !bool_decide_eq_true. lia.
Qed.

Lemma filter_filter_in_range s1 e1 s2 e2 (rs : list Row) :
  List.filter (in_range s2 e2) (List.filter (in_range s1 e1) rs)
  = List.filter (in_range (Z.max s1 s2) (Z.min e1 e2)) rs.
Proof.
  induction rs as [|r rs IH]; [done|]. cbn [List.filter].
  rewrite <- in_range_both.
  destruct (in_range s1 e1 r); cbn [List.filter andb];
    [destruct (in_range s2 e2 r)|]; by rewrite IH.
Qed.

(** X3.  Filtering a filtered table: the filter of line 86 applied to its
    own result with a second range gives what it gives on the loaded
    table with the intersection of the two ranges; applied again with the
    same range it changes nothing. *)
Theorem filter_by_date_twice data s1 e1 s2 e2 w :
  loaded data →
  empty data = false →
  ∃ filtered_data,
    run (filter_by_date data s1 e1) w = (Return filtered_data, w)
    ∧ run (filter_by_date filtered_data s2 e2) w
      = run (filter_by_date data (Z.max s1 s2) (Z.min e1 e2)) w
    ∧ run (filter_by_date filtered_data s1 e1) w = (Return filtered_data, w).
Proof.
  intros Hloaded Hne. destruct (loaded_nonempty data Hloaded Hne) as [Hcols Hts].
  assert (has_column data "Timestamp" = true) as Hcol by apply Hcols, list_elem_of_here.
  assert (∀ s e r, r ∈ rows (rows_in_range data s e) →
                   ∃ ns, at_col "Timestamp" r = Datetime ns) as Hts'.
  { intros s e r Hr. apply Hts. unfold rows_in_range in Hr. cbn [rows] in Hr.
    by apply list_elem_of_In, filter_In in Hr as [?%list_elem_of_In _]. }
  assert (∀ s e s' e', run (filter_by_date (rows_in_range data s e) s' e') w
                       = (Return (rows_in_range data (Z.max s s') (Z.min e e')), w))
    as Hagain.
  { intros s e s' e'. rewrite run_filter_by_date; [|done|by apply Hts'].
    unfold rows_in_range. cbn [rows columns]. by rewrite filter_filter_in_range. }
  exists (rows_in_range data s1 e1).
  split; [by apply run_filter_by_date|]. split.
  - rewrite Hagain. by rewrite run_filter_by_date.
  - rewrite Hagain. by rewrite Z.max_id, Z.min_id.
Qed.

(** X4.  The mask of line 86 in instants: a row is kept exactly when its
    time lies from the first instant of [start_date] up to, and not
    including, the first instant of the day after [end_date]; a row
    without a time is never kept. *)
Theorem date_mask_instants data start_date end_date r :
  let dates := map date_of_cell (column data "Timestamp") in
  r ∈ rows (bool_index data (zip_with andb (ge_date start_date <$> dates)
                                            (le_date end_date <$> dates)))
  ↔ r ∈ rows data
    ∧ ∃ ns, at_col "Timestamp" r = Datetime ns
            ∧ start_date * ns_per_day ≤ ns ∧ ns < (end_date + 1) * ns_per_day.
Proof.
  intros dates. unfold dates. rewrite bool_index_date_mask.
  unfold rows_in_range. cbn [rows].
  rewrite list_elem_of_In, filter_In, <- list_elem_of_In, in_range_spec.
  split; intros (Hr & ns & Hns & Hb); (split; [done|]); exists ns; (split; [done|]);
    by apply date_of_bounds.
Qed.


(** ** Further properties: the cache across runs *)

(** X5.  A failed fetch is cached like any other result: after a call
    whose fetch raised, every call made before 5 seconds have passed
    returns the empty table and shows the same failure message again,
    without reading the remote source, whatever the source would answer
    by then. *)
Theorem failed_fetch_is_cached w e t :
  match cache w with
  | Some c => stored_at c + cache_ttl ≤ now w
  | None => True
  end →
  read_csv spreadsheet_url (now w) = Raise e →
  t < now w + cache_ttl →
  let failure := StError ("Error loading data: " +:+ str e) in
  ∃ w1,
    run load_data w = (Return empty_frame, w1)
    ∧ log w1 = log w ++ [Lib (PdReadCsv spreadsheet_url); St failure]
    ∧ run (load_at t) w1 = (Return empty_frame, add_log [St failure] (set_now t w1)).
Proof.
  intros Hmiss Hfeed Ht failure.
  set (c := {| stored_at := now w; cached_value := empty_frame;
               cached_elements := [failure] |}).
  exists (set_cache (Some c)
            (add_log [Lib (PdReadCsv spreadsheet_url); St failure] w)).
  split; [|split; [done|]].
  - by rewrite (run_load_data_miss w Hmiss), Hfeed.
  - by apply (run_load_at_hit _ c t).
Qed.

(** A unit whose building adds only events in [P] adds only events in
    [P], given that its heading and its message are in [P]. *)
Lemma unit_only (P : event → Prop) title failure (body : M ()) :
  P (St (StSubheader title)) →
  (∀ body, P (St (StError body))) →
  writer_of P body →
  ∃ evs,
    writes (st_subheader title;;
            try_except body (λ e, st_error (failure +:+ str e))) (Return ()) evs
    ∧ Forall P evs.
Proof.
  intros Htitle Herr Hbody.
  destruct (unit_writes P title failure body Hbody) as (evs & built & Hw & Hb & Hs).
  exists evs. split; [done|].
  destruct Hs as [->|[e ->]]; unfold unit_shape; cbn [from_option];
    apply Forall_cons_2; try done; apply Forall_app; split; try done.
  by apply Forall_singleton.
Qed.

(** The four presentation units never read the remote source. *)
Lemma units_no_fetch filtered_data data :
  ∃ e1 e2 e3 e4,
    writes (fan_humidifier_chart filtered_data) (Return ()) e1
    ∧ writes (led_chart filtered_data) (Return ()) e2
    ∧ writes (show_temp_humidity data) (Return ()) e3
    ∧ writes (show_soil_light data) (Return ()) e4
    ∧ Forall (λ e, is_fetch e = false) (e1 ++ e2 ++ e3 ++ e4).
Proof.
  assert (∃ e1, writes (fan_humidifier_chart filtered_data) (Return ()) e1
                ∧ Forall (λ e, is_fetch e = false) e1) as (e1 & Hw1 & H1).
  { apply unit_only; [done|done|]. unfold fan_humidifier_try.
    writer_steps; reflexivity. }
  assert (∃ e2, writes (led_chart filtered_data) (Return ()) e2
                ∧ Forall (λ e, is_fetch e = false) e2) as (e2 & Hw2 & H2).
  { apply unit_only; [done|done|]. unfold led_try.
    destruct (has_column filtered_data "LED Brightness"); unfold st_warning;
      writer_steps; reflexivity. }
  assert (∀ title failure c1 l1 c2 l2,
            ∃ e, writes (line_panel data title failure c1 l1 c2 l2) (Return ()) e
                 ∧ Forall (λ e, is_fetch e = false) e) as Hpanel.
  { intros. apply unit_only; [done|done|]. unfold line_panel_try.
    writer_steps; reflexivity. }
  destruct (Hpanel "Temperature and Humidity Over Time"
              "Error plotting Temperature and Humidity: "
              "Temperature" "Temperature (°C)" "Humidity" "Humidity (%)")
    as (e3 & Hw3 & H3).
  destruct (Hpanel "Soil Moisture and Light Intensity Over Time"
              "Error plotting Soil Moisture and Light Intensity: "
              "Soil Moisture" "Soil Moisture (raw)" "Light Intensity" "Light Intensity (lux)")
    as (e4 & Hw4 & H4).
  exists e1, e2, e3, e4. repeat (split; [done|]).
  repeat (apply Forall_app; split); done.
Qed.

(** What the renderer does with a loaded table: it returns, touches
    neither the cache nor the clock, and reads nothing. *)
Lemma show_filtered_data_returns data w :
  loaded data →
  ∃ w' views,
    run (show_filtered_data data) w = (Return (), w')
    ∧ log w' = log w ++ views
    ∧ cache w' = cache w
    ∧ now w' = now w
    ∧ Forall (λ e, is_fetch e = false) views.
Proof.
  intros Hloaded. destruct (empty data) eqn:Hempty.
  - rewrite run_show_filtered_data_empty by done.
    eexists _, [_; _]. split; [done|]. split; [done|]. split; [done|]. split; [done|].
    by repeat constructor.
  - rewrite (run_show_filtered_data_loaded data w Hloaded Hempty).
    set (range := selected_range data (session_state w)).
    set (filtered_data := rows_in_range data range.1 range.2).
    destruct (empty filtered_data).
    + eexists _, [_; _; _; _]. split; [done|]. split.
      * cbn [add_log set_log set_session log]. by rewrite <- app_assoc.
      * split; [done|]. split; [done|]. by repeat constructor.
    + destruct (units_no_fetch filtered_data data)
        as (e1 & e2 & e3 & e4 & Hw1 & Hw2 & _ & _ & Hno).
      rewrite (writes_bind _ _ () e1 (Return ()) e2 Hw1 Hw2).
      apply Forall_app in Hno as [H1 Hno]. apply Forall_app in Hno as [H2 _].
      eexists _, ([_; _; _] ++ [_] ++ e1 ++ e2). split; [done|]. split.
      * cbn [add_log set_log set_session log]. by rewrite <- !app_assoc.
      * split; [done|]. split; [done|].
        repeat (apply Forall_app; split); try done; by repeat constructor.
Qed.

(** One pass from a sound cache. *)
Lemma main_returns w :
  cache_ok w →
  ∃ w' added,
    run main w = (Return (), w')
    ∧ log w' = log w ++ added
    ∧ cache_ok w'
    ∧ fetches added =
        match cache w with
        | Some c => if bool_decide (now w < stored_at c + cache_ttl) then 0%nat else 1%nat
        | None => 1%nat
        end.
Proof.
  intros Hok.
  assert (∃ data w1 loading,
            run load_data w = (Return data, w1)
            ∧ log w1 = log w ++ loading
            ∧ fetches loading =
                match cache w with
                | Some c => if bool_decide (now w < stored_at c + cache_ttl)
                            then 0%nat else 1%nat
                | None => 1%nat
                end)
    as (data & w1 & loading & Hload & Hlog1 & Hfetch).
  { destruct (cache w) as [c|] eqn:Hc.
    - case_bool_decide as Hlive.
      + rewrite (run_load_data_hit w c Hc Hlive).
        eexists _, _, _. split; [done|]. split; [done|]. apply fetches_St.
      + rewrite run_load_data_miss by (rewrite Hc; lia).
        eexists _, _, _. split; [done|]. split; [done|].
        change (fetches (?a :: ?l)) with (S (fetches l)). by rewrite fetches_St.
    - rewrite run_load_data_miss by (by rewrite Hc).
      eexists _, _, _. split; [done|]. split; [done|].
      change (fetches (?a :: ?l)) with (S (fetches l)). by rewrite fetches_St. }
  destruct (load_data_loaded w data w1 Hok Hload) as (Hloaded & Hok1 & _).
  destruct (show_filtered_data_returns data w1 Hloaded)
    as (w2 & views & Hshow & Hlog2 & Hcache2 & _ & Hviews).
  destruct (units_no_fetch data data) as (e1 & e2 & e3 & e4 & _ & _ & Hw3 & Hw4 & Hno).
  apply Forall_app in Hno as [_ Hno]. apply Forall_app in Hno as [_ Hno].
  exists (add_log (e3 ++ e4) w2), (loading ++ views ++ e3 ++ e4). split; [|split; [|split]].
  - rewrite (run_main w data w1 Hload), Hshow. by apply run_time_series.
  - cbn [add_log set_log log]. by rewrite Hlog2, Hlog1, <- !app_assoc.
  - intros c. cbn [add_log set_log cache]. rewrite Hcache2. apply Hok1.
  - rewrite fetches_app, Hfetch.
    assert (fetches (views ++ e3 ++ e4) = 0%nat) as ->; [|lia].
    unfold fetches. apply length_zero_iff_nil.
    assert (Forall (λ e, is_fetch e = false) (views ++ e3 ++ e4)) as Hall
      by (by apply Forall_app).
    induction Hall as [|x l Hx _ IH]; [done|]. cbn [List.filter]. by rewrite Hx.
Qed.

Lemma run_rerun t clicked w :
  run (rerun t clicked) w = run main (set_now t w).
Proof. unfold rerun, script. rewrite run_bind, run_modify. by destruct clicked. Qed.

(** X6.  No run of the script ends in an exception: from a session with a
    sound cache (an empty one at the start), any sequence of runs, at any
    times and with or without the button, runs to its end, and the cache
    stays sound. *)
Theorem reruns_always_return (runs : list (Z * bool)) w :
  cache_ok w →
  ∃ w',
    run (mapM (λ r, rerun r.1 r.2) runs) w = (Return (replicate (length runs) ()), w')
    ∧ cache_ok w'.
Proof.
  revert w. induction runs as [|[t clicked] runs IH]; intros w Hok.
  - by exists w.
  - assert (cache_ok (set_now t w)) as Hok' by done.
    destruct (main_returns (set_now t w) Hok') as (w1 & added & Hmain & _ & Hok1 & _).
    destruct (IH w1 Hok1) as (w' & Hrest & Hok2).
    exists w'. split; [|done]. cbn [mapM fst snd length replicate].
    by rewrite run_bind, run_rerun, Hmain, run_bind, Hrest.
Qed.

(** X7.  The button does not get around the cache: a run of the script,
    started by the button or not, reads the remote source once when the
    cache is empty or its entry is 5 seconds old or older, and not at all
    when the entry is younger. *)
Theorem rerun_fetches t clicked w :
  cache_ok w →
  ∃ w' added,
    run (rerun t clicked) w = (Return (), w')
    ∧ log w' = log w ++ added
    ∧ fetches added =
        match cache w with
        | Some c => if bool_decide (t < stored_at c + cache_ttl) then 0%nat else 1%nat
        | None => 1%nat
        end.
Proof.
  intros Hok. assert (cache_ok (set_now t w)) as Hok' by done.
  destruct (main_returns (set_now t w) Hok') as (w' & added & Hmain & Hlog & _ & Hfetch).
  exists w', added. by rewrite run_rerun.
Qed.


(** ** Further properties: the loader's result and the counts *)

(** X8.  The loader never returns a partial result.  A run of its body
    ends in one of two ways: with the empty frame and exactly one failure
    message after the fetch, or with a table that has the columns of the
    feed, the eight required ones among them, in which every row has a
    parsed time, and with no message at all. *)
Theorem load_data_all_or_nothing w data w' :
  run load_data_body w = (Return data, w') →
  (data = empty_frame
   ∧ ∃ body, w' = add_log [Lib (PdReadCsv spreadsheet_url); St (StError body)] w)
  ∨ (∃ feed,
       read_csv spreadsheet_url (now w) = Return feed
       ∧ columns data = columns feed
       ∧ (∀ col, col ∈ required_columns → col ∈ columns data)
       ∧ (∀ r, r ∈ rows data → ∃ ns, at_col "Timestamp" r = Datetime ns)
       ∧ (length (rows data) ≤ length (rows feed))%nat
       ∧ w' = add_log [Lib (PdReadCsv spreadsheet_url)] w).
Proof.
  rewrite run_load_data_body. intros [= <- <-].
  destruct (read_csv spreadsheet_url (now w)) as [feed|e] eqn:Hfeed.
  - destruct (missing_columns feed) as [|c l] eqn:Hmiss.
    + right. exists feed. split; [done|].
      split; [by apply load_value_columns|]. split; [|split; [|split]].
      * intros col Hcol. rewrite (load_value_columns feed Hmiss).
        pose proof (missing_columns_nil feed col Hmiss Hcol) as Hhas.
        by apply bool_decide_eq_true in Hhas.
      * intros r. by apply load_value_timestamps.
      * rewrite (load_value_rows feed Hmiss).
        induction (rows feed) as [|r rs IH]; [done|]. csimpl.
        destruct (to_datetime _ _); csimpl; lia.
      * unfold load_messages. by rewrite Hmiss.
    + left. unfold load_value, load_messages. rewrite Hmiss. split; [done|]. eauto.
  - left. split; [done|]. cbn [load_messages]. eauto.
Qed.

(** X9.  Loading changes nothing but the time column: every row of the
    loaded table is a row of the feed with the same cell in every column
    other than [Timestamp], and with its parsed time in [Timestamp]. *)
Theorem load_data_keeps_other_cells w feed :
  read_csv spreadsheet_url (now w) = Return feed →
  missing_columns feed = [] →
  ∃ table w',
    run load_data_body w = (Return table, w')
    ∧ ∀ r', r' ∈ rows table →
        ∃ r ns, r ∈ rows feed
                ∧ to_datetime (column feed "Timestamp") (at_col "Timestamp" r) = Some ns
                ∧ r' !! "Timestamp" = Some (Datetime ns)
                ∧ ∀ col, col ≠ "Timestamp" → r' !! col = r !! col.
Proof.
  intros Hfeed Hmiss. eexists _, _. split.
  - by rewrite run_load_data_body, Hfeed.
  - intros r'. rewrite (load_value_rows feed Hmiss), list_elem_of_omap.
    intros (r & Hr & Hparse).
    destruct (to_datetime _ _) as [ns|] eqn:Hns; [|done]. injection Hparse as <-.
    exists r, ns. split; [done|]. split; [done|].
    split; [apply lookup_insert_eq|]. intros col Hcol. by apply lookup_insert_ne.
Qed.

Lemma insert_desc_sorted p l :
  StronglySorted (λ p q : cell * nat, (q.2 ≤ p.2)%nat) l →
  StronglySorted (λ p q : cell * nat, (q.2 ≤ p.2)%nat) (insert_desc p l).
Proof.
  induction 1 as [|q l Hl IH Hq]; cbn [insert_desc]; [by repeat constructor|].
  case_bool_decide as Hle.
  - constructor; [by constructor|]. constructor; [done|].
    eapply Forall_impl; [exact Hq|]. intros x Hx. cbn in *. lia.
  - constructor; [done|]. rewrite insert_desc_perm. constructor; [lia | done].
Qed.

(** X10.  The slices of the LED chart come in descending order of count:
    in [value_counts] no entry has a larger count than an entry before
    it. *)
Theorem value_counts_descending s :
  StronglySorted (λ p q : cell * nat, (q.2 ≤ p.2)%nat) (value_counts s).
Proof.
  unfold value_counts, sort_desc.
  induction (tally (List.filter notna s)) as [|p l IH]; [constructor|].
  cbn [foldr]. by apply insert_desc_sorted.
Qed.


(** ** Further properties: the charts *)

Lemma at_col_restrict (cols : list string) col (r : Row) :
  col ∈ cols → at_col col (filter (λ kv, kv.1 ∈ cols) r) = at_col col r.
Proof.
  intros Hcol. unfold at_col. destruct (r !! col) as [c|] eqn:Hc.
  - by rewrite (map_lookup_filter_Some_2 _ r col c).
  - rewrite (map_lookup_filter_None_2 _ r col); [done | by left].
Qed.

Lemma run_getitems_present df cols w :
  (∀ c, c ∈ cols → has_column df c = true) →
  run (getitems df cols) w =
  (Return {| columns := cols; rows := map (filter (λ kv, kv.1 ∈ cols)) (rows df) |}, w).
Proof.
  intros Hall. unfold getitems.
  assert (List.filter (λ c, negb (has_column df c)) cols = []) as ->; [|done].
  induction cols as [|c cols IH]; [done|]. cbn [List.filter].
  rewrite (Hall c) by apply list_elem_of_here. cbn [negb]. apply IH.
  intros c' Hc'. by apply Hall, list_elem_of_further.
Qed.

(** The long form the bar chart is built from, read off the rows of the
    filtered table. *)
Lemma melt_selection (df : DataFrame) :
  melt {| columns := ["Timestamp"; "Fan State"; "Humidifier State"];
          rows := map (filter (λ kv, kv.1 ∈ ["Timestamp"; "Fan State"; "Humidifier State"]))
                    (rows df) |}
       ["Fan State"; "Humidifier State"]
  = map (λ r, (at_col "Timestamp" r, "Fan State", at_col "Fan State" r)) (rows df)
    ++ map (λ r, (at_col "Timestamp" r, "Humidifier State", at_col "Humidifier State" r))
         (rows df).
Proof.
  unfold melt. cbn [flat_map rows]. rewrite app_nil_r, !map_map.
  f_equal; apply map_ext; intros r; rewrite !at_col_restrict; try done;
    apply (bool_decide_unpack _); vm_compute; exact I.
Qed.

Lemma fan_humidifier_chart_drawn filtered_data :
  (∀ e, raises e = None) →
  has_column filtered_data "Timestamp" = true →
  has_column filtered_data "Fan State" = true →
  has_column filtered_data "Humidifier State" = true →
  let long :=
    map (λ r, (at_col "Timestamp" r, "Fan State", at_col "Fan State" r))
      (rows filtered_data)
    ++ map (λ r, (at_col "Timestamp" r, "Humidifier State", at_col "Humidifier State" r))
         (rows filtered_data) in
  writes (fan_humidifier_chart filtered_data) (Return ())
    [St (StSubheader "Fan and Humidifier States Over Time");
     Lib (PxBar long); Lib (UpdateLayout (BarFigure long));
     St (StPlotlyChart (BarFigure long))].
Proof.
  intros Hok Hts Hfan Hhum long w. unfold fan_humidifier_chart, fan_humidifier_try, lib, display.
  mstep. rewrite run_getitems_present.
  2:{ intros c Hc. repeat (apply elem_of_cons in Hc as [->|Hc]; [done|]).
      by apply elem_of_nil in Hc. }
  mstep. rewrite melt_selection. fold long. rewrite !Hok. by mstep.
Qed.

Lemma led_chart_drawn filtered_data :
  (∀ e, raises e = None) →
  has_column filtered_data "LED Brightness" = true →
  let led_count := value_counts (column filtered_data "LED Brightness") in
  let fig_led := PieFigure led_count.*2 led_count.*1 in
  writes (led_chart filtered_data) (Return ())
    [St (StSubheader "LED State Distribution");
     Lib (PxPie led_count.*2 led_count.*1);
     Lib (UpdateTraces fig_led); Lib (UpdateLayout fig_led);
     St (StPlotlyChart fig_led)].
Proof.
  intros Hok Hled led_count fig_led w. unfold led_chart, led_try, lib, display.
  mstep. rewrite Hled. mstep. rewrite Hled. mstep. fold led_count. fold fig_led.
  rewrite !Hok. by mstep.
Qed.

(** X11.  The bar chart gets the long form of the filtered table: when the
    three columns are there and no call fails, [px.bar] is called with
    one row per reading for the fan followed by one row per reading for
    the humidifier, each with the time of its reading, twice as many rows
    as the filtered table has, and that figure is what is shown. *)
Theorem bar_chart_long_form filtered_data :
  (∀ e, raises e = None) →
  has_column filtered_data "Timestamp" = true →
  has_column filtered_data "Fan State" = true →
  has_column filtered_data "Humidifier State" = true →
  let long :=
    map (λ r, (at_col "Timestamp" r, "Fan State", at_col "Fan State" r))
      (rows filtered_data)
    ++ map (λ r, (at_col "Timestamp" r, "Humidifier State", at_col "Humidifier State" r))
         (rows filtered_data) in
  writes (fan_humidifier_chart filtered_data) (Return ())
    [St (StSubheader "Fan and Humidifier States Over Time");
     Lib (PxBar long); Lib (UpdateLayout (BarFigure long));
     St (StPlotlyChart (BarFigure long))]
  ∧ length long = (2 * length (rows filtered_data))%nat.
Proof.
  intros Hok Hts Hfan Hhum long. split; [by apply fan_humidifier_chart_drawn|].
  unfold long. rewrite length_app, !length_map. lia.
Qed.

(** X12.  The warning for a missing LED column is dead code under [main]:
    for a loaded table that is not empty the renderer returns without
    ever showing it, whatever range is selected and whatever the plotting
    calls do. *)
Theorem led_warning_never_shown data w :
  loaded data →
  empty data = false →
  ∃ w' views,
    run (show_filtered_data data) w = (Return (), w')
    ∧ log w' = log w ++ views
    ∧ Forall (λ e, e ≠ St (StWarning "The column 'LED Brightness' is missing from the data."))
        views.
Proof.
  intros Hloaded Hne. destruct (loaded_nonempty data Hloaded Hne) as [Hcols _].
  rewrite (run_show_filtered_data_loaded data w Hloaded Hne).
  set (range := selected_range data (session_state w)).
  set (filtered_data := rows_in_range data range.1 range.2).
  destruct (empty filtered_data).
  - eexists _, [_; _; _; _]. split; [done|]. split.
    + cbn [add_log set_log set_session log]. by rewrite <- app_assoc.
    + by repeat constructor.
  - assert (∃ e1, writes (fan_humidifier_chart filtered_data) (Return ()) e1
                  ∧ Forall (λ e, e ≠ St (StWarning "The column 'LED Brightness' is missing from the data.")) e1)
      as (e1 & Hw1 & H1).
    { apply unit_only; [done|done|]. unfold fan_humidifier_try.
      writer_steps; done. }
    assert (∃ e2, writes (led_chart filtered_data) (Return ()) e2
                  ∧ Forall (λ e, e ≠ St (StWarning "The column 'LED Brightness' is missing from the data.")) e2)
      as (e2 & Hw2 & H2).
    { apply unit_only; [done|done|]. unfold led_try.
      assert (has_column filtered_data "LED Brightness" = true) as ->.
      { apply (Hcols "LED Brightness"). apply (bool_decide_unpack _). vm_compute. exact I. }
      writer_steps; done. }
    rewrite (writes_bind _ _ () e1 (Return ()) e2 Hw1 Hw2).
    eexists _, ([_; _; _] ++ [_] ++ e1 ++ e2). split; [done|]. split.
    + cbn [add_log set_log set_session log]. by rewrite <- !app_assoc.
    + repeat (apply Forall_app; split); try done; by repeat constructor.
Qed.

(** X13.  A pass in which nothing fails shows everything and no message:
    with a loaded table that is not empty, rows in the selected range and
    no failing call, the trace of [main] after the load is the two
    pickers, the table view, the bar chart, the LED chart over the
    counted values and the two panels over the whole table, with no
    [st.error] and no [st.warning] anywhere. *)
Theorem pass_without_failure w data w1 :
  (∀ e, raises e = None) →
  cache_ok w →
  run load_data w = (Return data, w1) →
  empty data = false →
  let range := selected_range data (session_state w1) in
  let filtered_data := rows_in_range data range.1 range.2 in
  empty filtered_data = false →
  let long :=
    map (λ r, (at_col "Timestamp" r, "Fan State", at_col "Fan State" r))
      (rows filtered_data)
    ++ map (λ r, (at_col "Timestamp" r, "Humidifier State", at_col "Humidifier State" r))
         (rows filtered_data) in
  let led_count := value_counts (column filtered_data "LED Brightness") in
  let fig_led := PieFigure led_count.*2 led_count.*1 in
  let x := column data "Timestamp" in
  let shown :=
    [St (StSubheader "Filter Data by Date Range");
     St (StDateInput "Start Date" range.1 "start_date_input");
     St (StDateInput "End Date" range.2 "end_date_input");
     St (StWrite filtered_data);
     St (StSubheader "Fan and Humidifier States Over Time");
     Lib (PxBar long); Lib (UpdateLayout (BarFigure long));
     St (StPlotlyChart (BarFigure long));
     St (StSubheader "LED State Distribution");
     Lib (PxPie led_count.*2 led_count.*1);
     Lib (UpdateTraces fig_led); Lib (UpdateLayout fig_led);
     St (StPlotlyChart fig_led);
     St (StSubheader "Temperature and Humidity Over Time"); Lib PltFigure;
     Lib (PltPlot x (column data "Temperature") "Temperature (°C)");
     Lib (PltPlot x (column data "Humidity") "Humidity (%)");
     Lib (PltDecorate "Temperature and Humidity Over Time");
     St (StPyplot (LineFigure "Temperature and Humidity Over Time"
                     [(x, column data "Temperature", "Temperature (°C)");
                      (x, column data "Humidity", "Humidity (%)")]));
     St (StSubheader "Soil Moisture and Light Intensity Over Time"); Lib PltFigure;
     Lib (PltPlot x (column data "Soil Moisture") "Soil Moisture (raw)");
     Lib (PltPlot x (column data "Light Intensity") "Light Intensity (lux)");
     Lib (PltDecorate "Soil Moisture and Light Intensity Over Time");
     St (StPyplot (LineFigure "Soil Moisture and Light Intensity Over Time"
                     [(x, column data "Soil Moisture", "Soil Moisture (raw)");
                      (x, column data "Light Intensity", "Light Intensity (lux)")]))] in
  run main w = (Return (), add_log shown (set_session (kept_range range.1 range.2) w1)).
Proof.
  intros Hok Hcache Hload Hne range filtered_data Hrows long led_count fig_led x shown.
  destruct (load_data_loaded w data w1 Hcache Hload) as [Hloaded _].
  destruct (loaded_nonempty data Hloaded Hne) as [Hcols _].
  assert (∀ col, col ∈ required_columns → has_column filtered_data col = true) as Hcols'
    by apply Hcols.
  assert (∀ col, bool_decide (col ∈ required_columns) = true →
                 col ∈ required_columns) as Hin
    by (intros col; apply bool_decide_eq_true).
  rewrite (run_main w data w1 Hload).
  rewrite (run_show_filtered_data_loaded data w1 Hloaded Hne).
  fold range. fold filtered_data. rewrite Hrows.
  rewrite (writes_bind _ _ () _ (Return ()) _
             (fan_humidifier_chart_drawn filtered_data Hok
                (Hcols' _ (Hin "Timestamp" eq_refl))
                (Hcols' _ (Hin "Fan State" eq_refl))
                (Hcols' _ (Hin "Humidifier State" eq_refl)))
             (led_chart_drawn filtered_data Hok (Hcols' _ (Hin "LED Brightness" eq_refl)))).
  rewrite (run_time_series data _ _ _
             (line_panel_drawn data "Temperature and Humidity Over Time"
                "Error plotting Temperature and Humidity: "
                "Temperature" "Temperature (°C)" "Humidity" "Humidity (%)" Hok
                (Hcols _ (Hin "Timestamp" eq_refl))
                (Hcols _ (Hin "Temperature" eq_refl))
                (Hcols _ (Hin "Humidity" eq_refl)))
             (line_panel_drawn data "Soil Moisture and Light Intensity Over Time"
                "Error plotting Soil Moisture and Light Intensity: "
                "Soil Moisture" "Soil Moisture (raw)" "Light Intensity" "Light Intensity (lux)"
                Hok
                (Hcols _ (Hin "Timestamp" eq_refl))
                (Hcols _ (Hin "Soil Moisture" eq_refl))
                (Hcols _ (Hin "Light Intensity" eq_refl)))).
  by rewrite !add_log_app.
Qed.


(** X14.  A time-series panel on a table without the time column, the
    empty frame of a failed load for one: the figure is opened, no line
    is plotted, and the panel ends with its one message, for the missing
    key [Timestamp], or for the exception of [plt.figure] if that call
    failed first. *)
Theorem panels_without_time_column data :
  has_column data "Timestamp" = false →
  let reason := default (KeyError "Timestamp") (raises (Lib PltFigure)) in
  writes (show_temp_humidity data) (Return ())
    [St (StSubheader "Temperature and Humidity Over Time"); Lib PltFigure;
     St (StError ("Error plotting Temperature and Humidity: " +:+ str reason))]
  ∧ writes (show_soil_light data) (Return ())
      [St (StSubheader "Soil Moisture and Light Intensity Over Time"); Lib PltFigure;
       St (StError ("Error plotting Soil Moisture and Light Intensity: " +:+ str reason))].
Proof.
  intros Hcol reason. unfold reason, show_temp_humidity, show_soil_light, line_panel, line_panel_try, lib.
  split; intros w; mstep; destruct (raises (Lib PltFigure)); mstep;
    rewrite ?Hcol; by mstep.
Qed.

(** X15.  A feed in which no time parses, or that has the header only:
    the load succeeds without a message and returns a table with the
    columns and no row; the renderer treats it as no data, and the two
    panels, when no call fails, draw their figure with two empty lines
    instead of reporting an error. *)
Theorem unparsed_feed_is_no_data w feed :
  read_csv spreadsheet_url (now w) = Return feed →
  missing_columns feed = [] →
  (∀ r, r ∈ rows feed →
        to_datetime (column feed "Timestamp") (at_col "Timestamp" r) = None) →
  (∀ e, raises e = None) →
  ∃ table,
    run load_data_body w = (Return table, add_log [Lib (PdReadCsv spreadsheet_url)] w)
    ∧ columns table = columns feed
    ∧ rows table = []
    ∧ (∀ w2, run (show_filtered_data table) w2 =
             (Return (),
              add_log [St (StSubheader "Filter Data by Date Range");
                       St (StError "No data loaded. Please check your Google Sheets link or data format.")]
                w2))
    ∧ writes (show_temp_humidity table) (Return ())
        [St (StSubheader "Temperature and Humidity Over Time"); Lib PltFigure;
         Lib (PltPlot [] [] "Temperature (°C)");
         Lib (PltPlot [] [] "Humidity (%)");
         Lib (PltDecorate "Temperature and Humidity Over Time");
         St (StPyplot (LineFigure "Temperature and Humidity Over Time"
                         [([], [], "Temperature (°C)"); ([], [], "Humidity (%)")]))].
Proof.
  intros Hfeed Hmiss Hnone Hok.
  assert (rows (load_value (Return feed)) = []) as Hrows.
  { rewrite (load_value_rows feed Hmiss).
    induction (rows feed) as [|r rs IH]; [done|]. csimpl.
    rewrite (Hnone r) by apply list_elem_of_here. csimpl. apply IH.
    intros r' Hr'. by apply Hnone, list_elem_of_further. }
  assert (∀ col, col ∈ required_columns →
                 has_column (load_value (Return feed)) col = true) as Hcols.
  { intros col Hcol. unfold has_column. rewrite (load_value_columns feed Hmiss).
    by apply (missing_columns_nil feed col Hmiss). }
  exists (load_value (Return feed)).
  split; [|split; [by apply load_value_columns|split; [done|split]]].
  - rewrite run_load_data_body, Hfeed. unfold load_messages. by rewrite Hmiss.
  - intros w2. apply run_show_filtered_data_empty. unfold empty. rewrite Hrows.
    rewrite (bool_decide_eq_true_2 ([] = [])) by done. apply orb_true_r.
  - pose proof (line_panel_drawn (load_value (Return feed))
                  "Temperature and Humidity Over Time"
                  "Error plotting Temperature and Humidity: "
                  "Temperature" "Temperature (°C)" "Humidity" "Humidity (%)" Hok) as Hdrawn.
    unfold column in Hdrawn. rewrite Hrows in Hdrawn. cbn [map] in Hdrawn.
    apply Hdrawn; apply Hcols; apply (bool_decide_unpack _); vm_compute; exact I.
Qed.

End Script.


(** ** The properties on the sample feeds *)

Ltac decided := apply (bool_decide_unpack _); vm_compute; exact I.

(** The fetch of the sample feed at second 100 loads the sample table and
    leaves the world [Sample.fetched_at_100]. *)
Lemma sample_fetch :
  run (load_at Sample.serving Sample.to_datetime Sample.str 100) Sample.first_run
  = (Return Sample.table, Sample.fetched_at_100).
Proof. vm_compute. reflexivity. Qed.

Lemma sample_table_loaded :
  loaded Sample.serving Sample.to_datetime Sample.str Sample.table.
Proof. exists Sample.first_run. eexists. vm_compute. reflexivity. Defined.

Lemma first_run_cache_ok read_csv to_datetime str w :
  cache w = None → cache_ok read_csv to_datetime str w.
Proof. intros Hnone c Hc. rewrite Hnone in Hc. discriminate Hc. Defined.

(** The feed without [Humidity]: no row is loaded and the message names
    [Humidity]. *)
Lemma load_data_missing_columns_witness :
  Sample.serving_without_humidity spreadsheet_url (now Sample.first_run)
    = Return Sample.feed_without_humidity
  ∧ "Humidity" ∈ required_columns
  ∧ ("Humidity" ∉ columns Sample.feed_without_humidity)
  ∧ run (load_data_body Sample.serving_without_humidity Sample.to_datetime Sample.str)
      Sample.first_run
    = (Return empty_frame,
       add_log [Lib (PdReadCsv spreadsheet_url);
                St (StError "Missing columns in the data: Humidity")] Sample.first_run).
Proof.
  assert ("Humidity" ∈ required_columns) as Hreq by decided.
  assert ("Humidity" ∉ columns Sample.feed_without_humidity) as Hno by decided.
  split; [reflexivity|]. split; [exact Hreq|]. split; [exact Hno|].
  destruct (load_data_missing_columns Sample.serving_without_humidity
              Sample.to_datetime Sample.str Sample.first_run
              Sample.feed_without_humidity "Humidity" eq_refl Hreq Hno) as [Hrun _].
  rewrite Hrun. vm_compute. reflexivity.
Defined.

(** Three rows, one with the time [not-a-date]: two rows are loaded and no
    message is shown. *)
Lemma load_data_drops_unparsed_witness :
  Sample.serving spreadsheet_url (now Sample.first_run) = Return Sample.feed
  ∧ (∀ col, col ∈ required_columns → col ∈ columns Sample.feed)
  ∧ ∃ table,
      run (load_data_body Sample.serving Sample.to_datetime Sample.str) Sample.first_run
      = (Return table, add_log [Lib (PdReadCsv spreadsheet_url)] Sample.first_run)
      ∧ length (rows Sample.feed) = 3%nat
      ∧ length (rows table) = 2%nat.
Proof.
  split; [reflexivity|]. split; [by intros col Hcol|].
  destruct (load_data_drops_unparsed Sample.serving Sample.to_datetime Sample.str
              Sample.first_run Sample.feed eq_refl (λ col Hcol, Hcol))
    as (table & Hrun & _ & _ & _ & Hlen).
  exists table. split; [exact Hrun|]. split; [reflexivity|].
  rewrite Hlen. vm_compute. reflexivity.
Defined.

(** The remote source is down: one message, the empty frame. *)
Lemma load_data_fetch_failure_witness :
  Sample.down spreadsheet_url (now Sample.first_run)
    = Raise (LibraryError "HTTP Error 404: Not Found")
  ∧ run (load_data_body Sample.down Sample.to_datetime Sample.str) Sample.first_run
    = (Return empty_frame,
       add_log [Lib (PdReadCsv spreadsheet_url);
                St (StError "Error loading data: HTTP Error 404: Not Found")]
         Sample.first_run).
Proof.
  split; [reflexivity|].
  destruct (load_data_fetch_failure Sample.down Sample.to_datetime Sample.str
              Sample.first_run (LibraryError "HTTP Error 404: Not Found") eq_refl)
    as [Hrun _].
  rewrite Hrun. vm_compute. reflexivity.
Defined.

(** After the fetch at second 100, a call at second 102 is served from the
    cache and a call at second 105 fetches again: the trace holds the
    fetch of second 100 and one more. *)
Lemma load_data_cache_window_witness :
  let c := {| stored_at := 100; cached_value := Sample.table; cached_elements := [] |} in
  cache Sample.fetched_at_100 = Some c
  ∧ Forall (λ t, t < stored_at c + cache_ttl) [102]
  ∧ stored_at c + cache_ttl ≤ 105
  ∧ ∃ w',
      run (mapM (load_at Sample.serving Sample.to_datetime Sample.str) [102; 105])
        Sample.fetched_at_100
      = (Return [Sample.table; Sample.table], w')
      ∧ log w' = [Lib (PdReadCsv spreadsheet_url); Lib (PdReadCsv spreadsheet_url)].
Proof.
  intros c.
  assert (Forall (λ t, t < stored_at c + cache_ttl) [102]) as Hts
    by (repeat constructor).
  assert (stored_at c + cache_ttl ≤ 105) as Hlate by (vm_compute; discriminate).
  split; [reflexivity|]. split; [exact Hts|]. split; [exact Hlate|].
  destruct (load_data_cache_window Sample.serving Sample.to_datetime Sample.str
              Sample.fetched_at_100 c [102] 105 eq_refl Hts Hlate)
    as (w' & served & Hrun & Hlog & Hserved & _).
  exists w'. split.
  - etransitivity; [exact Hrun|]. f_equal.
  - rewrite Hlog, Hserved. vm_compute. reflexivity.
Defined.

(** The sample table and the range of 1 and 2 January 2024: the first
    reading stays, the reading of 3 January goes. *)
Lemma filter_by_date_exact_witness :
  loaded Sample.serving Sample.to_datetime Sample.str Sample.table
  ∧ empty Sample.table = false
  ∧ run (filter_by_date Sample.table 19723 19724) Sample.first_run
    = (Return {| columns := required_columns;
                 rows := [Sample.reading (Datetime 1704096000000000000)
                            (Str "ON") (Str "OFF") (Int64 255) 24 80 512 300] |},
       Sample.first_run).
Proof.
  split; [exact sample_table_loaded|]. split; [reflexivity|].
  destruct (filter_by_date_exact Sample.serving Sample.to_datetime Sample.str
              Sample.table 19723 19724 Sample.first_run sample_table_loaded eq_refl)
    as [Hrun _].
  rewrite Hrun. vm_compute. reflexivity.
Defined.


(** The pickers hold 5 January as start and 3 January as end: the notice
    is shown and no chart of the filtered views is built. *)
Lemma empty_range_notice_witness :
  let w := Sample.reversed_range in
  let w1 := Sample.with_fetch w in
  cache_ok Sample.serving Sample.to_datetime Sample.str w
  ∧ run (load_data Sample.serving Sample.to_datetime Sample.str) w
    = (Return Sample.table, w1)
  ∧ empty Sample.table = false
  ∧ selected_range Sample.table (session_state w1) = (19727, 19725)
  ∧ 19725 < 19727
  ∧ run (show_filtered_data Sample.plotting Sample.str Sample.table) w1
    = (Return (),
       add_log [St (StSubheader "Filter Data by Date Range");
                St (StDateInput "Start Date" 19727 "start_date_input");
                St (StDateInput "End Date" 19725 "end_date_input");
                St (StWarning "No data available for the selected date range.")]
         (set_session (kept_range 19727 19725) w1)).
Proof.
  intros w w1.
  assert (cache_ok Sample.serving Sample.to_datetime Sample.str w) as Hok
    by (by apply first_run_cache_ok).
  assert (run (load_data Sample.serving Sample.to_datetime Sample.str) w
          = (Return Sample.table, w1)) as Hload by (vm_compute; reflexivity).
  assert (selected_range Sample.table (session_state w1) = (19727, 19725)) as Hrange
    by (vm_compute; reflexivity).
  assert (19725 < 19727) as Hlt by reflexivity.
  split; [exact Hok|]. split; [exact Hload|]. split; [reflexivity|].
  split; [exact Hrange|]. split; [exact Hlt|].
  destruct (empty_range_notice Sample.serving Sample.to_datetime Sample.plotting
              Sample.str w Sample.table w1 19727 19725 Hok Hload eq_refl Hrange
              (or_introl Hlt)) as (_ & Hshow & _).
  exact Hshow.
Defined.

(** The pickers select 1 January alone: the table view has one row, and
    the two panels plot the two rows of the loaded table. *)
Lemma time_series_over_full_table_witness :
  let w := Sample.one_day_range in
  let w1 := Sample.with_fetch w in
  let x := [Datetime 1704096000000000000; Datetime 1704326399000000000] in
  cache_ok Sample.serving Sample.to_datetime Sample.str w
  ∧ run (load_data Sample.serving Sample.to_datetime Sample.str) w
    = (Return Sample.table, w1)
  ∧ length (rows (rows_in_range Sample.table 19723 19723)) = 1%nat
  ∧ ∃ w' views e3 e4,
      run (main Sample.serving Sample.to_datetime Sample.plotting Sample.str) w
      = (Return (), w')
      ∧ log w' = log w1 ++ views ++ e3 ++ e4
      ∧ e3 = [St (StSubheader "Temperature and Humidity Over Time"); Lib PltFigure;
              Lib (PltPlot x [Int64 24; Int64 23] "Temperature (°C)");
              Lib (PltPlot x [Int64 80; Int64 82] "Humidity (%)");
              Lib (PltDecorate "Temperature and Humidity Over Time");
              St (StPyplot (LineFigure "Temperature and Humidity Over Time"
                              [(x, [Int64 24; Int64 23], "Temperature (°C)");
                               (x, [Int64 80; Int64 82], "Humidity (%)")]))]
      ∧ e4 = [St (StSubheader "Soil Moisture and Light Intensity Over Time"); Lib PltFigure;
              Lib (PltPlot x [Int64 512; Int64 500] "Soil Moisture (raw)");
              Lib (PltPlot x [Int64 300; Int64 0] "Light Intensity (lux)");
              Lib (PltDecorate "Soil Moisture and Light Intensity Over Time");
              St (StPyplot (LineFigure "Soil Moisture and Light Intensity Over Time"
                              [(x, [Int64 512; Int64 500], "Soil Moisture (raw)");
                               (x, [Int64 300; Int64 0], "Light Intensity (lux)")]))].
Proof.
  intros w w1 x.
  assert (cache_ok Sample.serving Sample.to_datetime Sample.str w) as Hok
    by (by apply first_run_cache_ok).
  assert (run (load_data Sample.serving Sample.to_datetime Sample.str) w
          = (Return Sample.table, w1)) as Hload by (vm_compute; reflexivity).
  split; [exact Hok|]. split; [exact Hload|]. split; [reflexivity|].
  destruct (time_series_over_full_table Sample.serving Sample.to_datetime
              Sample.plotting Sample.str w Sample.table w1 Hok Hload)
    as (w' & views & e3 & e4 & Hmain & Hlog & _ & _ & _ & _ & Hdrawn).
  destruct (Hdrawn (λ _, eq_refl) eq_refl) as [He3 He4].
  exists w', views, e3, e4. split; [exact Hmain|]. split; [exact Hlog|].
  split; [rewrite He3 | rewrite He4]; vm_compute; reflexivity.
Defined.

(** The remote source is down: the no-data message, no picker, and the
    two panels each with the message for the missing time column. *)
Lemma empty_table_pass_witness :
  let w := Sample.first_run in
  let w1 := Sample.with_failed_fetch w in
  run (load_data Sample.down Sample.to_datetime Sample.str) w = (Return empty_frame, w1)
  ∧ empty empty_frame = true
  ∧ ∃ e3 e4,
      e3 = [St (StSubheader "Temperature and Humidity Over Time"); Lib PltFigure;
            St (StError "Error plotting Temperature and Humidity: 'Timestamp'")]
      ∧ e4 = [St (StSubheader "Soil Moisture and Light Intensity Over Time"); Lib PltFigure;
              St (StError "Error plotting Soil Moisture and Light Intensity: 'Timestamp'")]
      ∧ run (main Sample.down Sample.to_datetime Sample.plotting Sample.str) w
        = (Return (),
           add_log ([St (StSubheader "Filter Data by Date Range");
                     St (StError "No data loaded. Please check your Google Sheets link or data format.")]
                    ++ e3 ++ e4) w1).
Proof.
  intros w w1.
  assert (run (load_data Sample.down Sample.to_datetime Sample.str) w
          = (Return empty_frame, w1)) as Hload by (vm_compute; reflexivity).
  split; [exact Hload|]. split; [reflexivity|].
  destruct (empty_table_pass Sample.down Sample.to_datetime Sample.plotting Sample.str
              w empty_frame w1 Hload eq_refl)
    as (e3 & e4 & _ & [Hw3 _] & [Hw4 _] & Hmain & _).
  exists e3, e4. specialize (Hw3 blank). specialize (Hw4 blank).
  vm_compute in Hw3, Hw4. injection Hw3 as <-. injection Hw4 as <-.
  split; [vm_compute; reflexivity|]. split; [vm_compute; reflexivity|].
  exact Hmain.
Defined.

(** C3 as stated fails on the table loaded from the sample feed, shown
    over its whole range: the table view has two rows, one of them
    without LED value, and the counts of the chart add up to one. *)
Lemma led_counts_counterexample :
  let pass := run (main Sample.serving Sample.to_datetime Sample.plotting Sample.str)
                Sample.first_run in
  let filtered_data := rows_in_range Sample.table 19723 19725 in
  let led_count := value_counts (column filtered_data "LED Brightness") in
  log pass.2 !! 4%nat = Some (St (StWrite filtered_data))
  ∧ log pass.2 !! 10%nat = Some (Lib (PxPie led_count.*2 led_count.*1))
  ∧ column filtered_data "LED Brightness" = [Int64 255; NaN]
  ∧ length (rows filtered_data) = 2%nat
  ∧ sum_list led_count.*2 = 1%nat
  ∧ sum_list led_count.*2 ≠ length (rows filtered_data).
Proof.
  intros pass filtered_data led_count.
  split; [vm_compute; reflexivity|]. split; [vm_compute; reflexivity|].
  split; [vm_compute; reflexivity|]. split; [reflexivity|].
  split; [reflexivity|]. vm_compute. discriminate.
Qed.

(** C7 as stated fails on the empty table: the remote source is down, the
    session holds a start after its end, and the renderer shows the
    no-data message, not the notice for an empty range. *)
Lemma empty_range_counterexample :
  let w1 := Sample.with_failed_fetch Sample.reversed_range in
  let shown := run (show_filtered_data Sample.plotting Sample.str empty_frame) w1 in
  run (load_data Sample.down Sample.to_datetime Sample.str) Sample.reversed_range
    = (Return empty_frame, w1)
  ∧ selected_range empty_frame (session_state w1) = (19727, 19725)
  ∧ 19725 < 19727
  ∧ shown.1 = Return ()
  ∧ log shown.2
    = log w1 ++ [St (StSubheader "Filter Data by Date Range");
                 St (StError "No data loaded. Please check your Google Sheets link or data format.")]
  ∧ St (StWarning "No data available for the selected date range.") ∉ log shown.2.
Proof.
  intros w1 shown.
  assert (log shown.2
          = log w1 ++ [St (StSubheader "Filter Data by Date Range");
                       St (StError "No data loaded. Please check your Google Sheets link or data format.")])
    as Hlog by (vm_compute; reflexivity).
  split; [vm_compute; reflexivity|]. split; [vm_compute; reflexivity|].
  split; [reflexivity|]. split; [reflexivity|]. split; [exact Hlog|].
  rewrite Hlog. cbn [Sample.with_failed_fetch set_cache add_log set_log log app
                     Sample.reversed_range].
  intros Hin. repeat (apply elem_of_cons in Hin as [Hin|Hin]; [discriminate Hin|]).
  by apply elem_of_nil in Hin.
Qed.

(** ** The further properties on the sample feeds *)

Lemma sample_tables_loaded :
  loaded Sample.changing Sample.to_datetime Sample.str Sample.table
  ∧ loaded Sample.changing Sample.to_datetime Sample.str Sample.later_table.
Proof.
  split.
  - exists Sample.first_run. eexists. vm_compute. reflexivity.
  - exists (set_now 300 Sample.first_run). eexists. vm_compute. reflexivity.
Defined.

Lemma fetched_cache_ok :
  cache_ok Sample.serving Sample.to_datetime Sample.str Sample.fetched_at_100.
Proof. intros c Hc. injection Hc as <-. exact sample_table_loaded. Defined.

(** First display of the sample table: the pickers show 1 and 3 January
    and the whole table is in range. *)
Lemma default_range_shows_all_witness :
  loaded Sample.serving Sample.to_datetime Sample.str Sample.table
  ∧ empty Sample.table = false
  ∧ session_state Sample.first_run !! "start_date" = None
  ∧ session_state Sample.first_run !! "end_date" = None
  ∧ session_state Sample.first_run !! "start_date_input" = None
  ∧ session_state Sample.first_run !! "end_date_input" = None
  ∧ selected_range Sample.table (session_state Sample.first_run) = (19723, 19725)
  ∧ rows_in_range Sample.table 19723 19725 = Sample.table.
Proof.
  do 6 (split; [first [exact sample_table_loaded | reflexivity]|]).
  destruct (default_range_shows_all Sample.serving Sample.to_datetime Sample.plotting
              Sample.str Sample.table Sample.first_run sample_table_loaded
              eq_refl eq_refl eq_refl eq_refl eq_refl)
    as (lo & hi & Hlo & Hhi & Hrange & Hall & _).
  vm_compute in Hlo, Hhi. injection Hlo as <-. injection Hhi as <-.
  split; [exact Hrange | exact Hall].
Defined.

(** The pickers hold 1 January; after a refresh the feed holds one reading
    of 2 January, and the pickers still return 1 January. *)
Lemma selected_range_persists_witness :
  loaded Sample.changing Sample.to_datetime Sample.str Sample.table
  ∧ empty Sample.table = false
  ∧ loaded Sample.changing Sample.to_datetime Sample.str Sample.later_table
  ∧ empty Sample.later_table = false
  ∧ ∃ w1,
      run (date_range Sample.table) Sample.one_day_range = (Return (19723, 19723), w1)
      ∧ run (date_range Sample.later_table) w1
        = (Return (19723, 19723),
           add_log [St (StDateInput "Start Date" 19723 "start_date_input");
                    St (StDateInput "End Date" 19723 "end_date_input")] w1).
Proof.
  destruct sample_tables_loaded as [H1 H2].
  split; [exact H1|]. split; [reflexivity|]. split; [exact H2|]. split; [reflexivity|].
  destruct (selected_range_persists Sample.changing Sample.to_datetime Sample.str
              Sample.table Sample.later_table Sample.one_day_range
              H1 eq_refl H2 eq_refl) as (w1 & Hrun & _ & Hnext).
  exists w1. split; [exact Hrun | exact Hnext].
Defined.

(** The sample table filtered to 1-3 January and then to 3-10 January is
    the table filtered to 3 January. *)
Lemma filter_by_date_twice_witness :
  loaded Sample.serving Sample.to_datetime Sample.str Sample.table
  ∧ empty Sample.table = false
  ∧ ∃ filtered_data,
      run (filter_by_date Sample.table 19723 19725) Sample.first_run
        = (Return filtered_data, Sample.first_run)
      ∧ run (filter_by_date filtered_data 19725 19732) Sample.first_run
        = run (filter_by_date Sample.table 19725 19725) Sample.first_run.
Proof.
  split; [exact sample_table_loaded|]. split; [reflexivity|].
  destruct (filter_by_date_twice Sample.serving Sample.to_datetime Sample.str
              Sample.table 19723 19725 19725 19732 Sample.first_run
              sample_table_loaded eq_refl) as (f & Hf & Hagain & _).
  exists f. split; [exact Hf | exact Hagain].
Defined.

(** The source is down at second 100; a call at second 104 shows the
    failure again and reads nothing. *)
Lemma failed_fetch_is_cached_witness :
  let failure := StError "Error loading data: HTTP Error 404: Not Found" in
  match cache Sample.first_run with
  | Some c => stored_at c + cache_ttl ≤ now Sample.first_run
  | None => True
  end
  ∧ Sample.down spreadsheet_url (now Sample.first_run)
    = Raise (LibraryError "HTTP Error 404: Not Found")
  ∧ 104 < now Sample.first_run + cache_ttl
  ∧ ∃ w1,
      run (load_data Sample.down Sample.to_datetime Sample.str) Sample.first_run
        = (Return empty_frame, w1)
      ∧ run (load_at Sample.down Sample.to_datetime Sample.str 104) w1
        = (Return empty_frame, add_log [St failure] (set_now 104 w1)).
Proof.
  intros failure. split; [exact I|]. split; [reflexivity|]. split; [reflexivity|].
  destruct (failed_fetch_is_cached Sample.down Sample.to_datetime Sample.str
              Sample.first_run (LibraryError "HTTP Error 404: Not Found") 104
              I eq_refl eq_refl) as (w1 & Hload & _ & Hnext).
  exists w1. split; [exact Hload | exact Hnext].
Defined.

(** Three runs, two of them by the button, with a failing bar chart: all
    three run to their end. *)
Lemma reruns_always_return_witness :
  cache_ok Sample.serving Sample.to_datetime Sample.str Sample.first_run
  ∧ ∃ w',
      run (mapM (λ r, rerun Sample.serving Sample.to_datetime Sample.bar_fails Sample.str
                        r.1 r.2)
             [(100, false); (102, true); (106, true)]) Sample.first_run
      = (Return [(); (); ()], w').
Proof.
  assert (cache_ok Sample.serving Sample.to_datetime Sample.str Sample.first_run) as Hok
    by (by apply first_run_cache_ok).
  split; [exact Hok|].
  destruct (reruns_always_return Sample.serving Sample.to_datetime Sample.bar_fails
              Sample.str [(100, false); (102, true); (106, true)] Sample.first_run Hok)
    as (w' & Hrun & _).
  exists w'. exact Hrun.
Defined.

(** The button at second 102, after the fetch of second 100: nothing is
    read from the remote source. *)
Lemma rerun_fetches_witness :
  cache_ok Sample.serving Sample.to_datetime Sample.str Sample.fetched_at_100
  ∧ ∃ w' added,
      run (rerun Sample.serving Sample.to_datetime Sample.plotting Sample.str 102 true)
        Sample.fetched_at_100 = (Return (), w')
      ∧ log w' = log Sample.fetched_at_100 ++ added
      ∧ fetches added = 0%nat.
Proof.
  split; [exact fetched_cache_ok|].
  destruct (rerun_fetches Sample.serving Sample.to_datetime Sample.plotting Sample.str
              102 true Sample.fetched_at_100 fetched_cache_ok)
    as (w' & added & Hrun & Hlog & Hfetch).
  exists w', added. split; [exact Hrun|]. split; [exact Hlog | exact Hfetch].
Defined.

(** The load of the sample feed: a complete table, no message. *)
Lemma load_data_all_or_nothing_witness :
  let w' := add_log [Lib (PdReadCsv spreadsheet_url)] Sample.first_run in
  run (load_data_body Sample.serving Sample.to_datetime Sample.str) Sample.first_run
    = (Return Sample.table, w')
  ∧ columns Sample.table = columns Sample.feed
  ∧ (length (rows Sample.table) ≤ length (rows Sample.feed))%nat.
Proof.
  intros w'.
  assert (run (load_data_body Sample.serving Sample.to_datetime Sample.str)
            Sample.first_run = (Return Sample.table, w')) as Hrun
    by (vm_compute; reflexivity).
  split; [exact Hrun|].
  destruct (load_data_all_or_nothing Sample.serving Sample.to_datetime Sample.str
              Sample.first_run Sample.table w' Hrun)
    as [[Hempty _]|(feed & Hfeed & Hcols & _ & _ & Hlen & _)].
  - discriminate Hempty.
  - injection Hfeed as <-. split; [exact Hcols | exact Hlen].
Defined.

(** The load of the sample feed: each loaded row is a row of the feed with
    its other cells unchanged. *)
Lemma load_data_keeps_other_cells_witness :
  Sample.serving spreadsheet_url (now Sample.first_run) = Return Sample.feed
  ∧ missing_columns Sample.feed = []
  ∧ ∃ table w',
      run (load_data_body Sample.serving Sample.to_datetime Sample.str) Sample.first_run
        = (Return table, w')
      ∧ ∀ r', r' ∈ rows table →
          ∃ r ns, r ∈ rows Sample.feed
                  ∧ Sample.to_datetime (column Sample.feed "Timestamp")
                      (at_col "Timestamp" r) = Some ns
                  ∧ r' !! "Timestamp" = Some (Datetime ns)
                  ∧ ∀ col, col ≠ "Timestamp" → r' !! col = r !! col.
Proof.
  split; [reflexivity|]. split; [reflexivity|].
  exact (load_data_keeps_other_cells Sample.serving Sample.to_datetime Sample.str
           Sample.first_run Sample.feed eq_refl eq_refl).
Defined.

(** The bar chart of the sample table: four long rows for two readings. *)
Lemma bar_chart_long_form_witness :
  (∀ e, Sample.plotting e = None)
  ∧ has_column Sample.table "Timestamp" = true
  ∧ has_column Sample.table "Fan State" = true
  ∧ has_column Sample.table "Humidifier State" = true
  ∧ ∃ long,
      long = [(Datetime 1704096000000000000, "Fan State", Str "ON");
              (Datetime 1704326399000000000, "Fan State", Str "OFF");
              (Datetime 1704096000000000000, "Humidifier State", Str "OFF");
              (Datetime 1704326399000000000, "Humidifier State", Str "ON")]
      ∧ writes (fan_humidifier_chart Sample.plotting Sample.str Sample.table) (Return ())
          [St (StSubheader "Fan and Humidifier States Over Time");
           Lib (PxBar long); Lib (UpdateLayout (BarFigure long));
           St (StPlotlyChart (BarFigure long))].
Proof.
  split; [by intros e|]. repeat (split; [reflexivity|]).
  destruct (bar_chart_long_form Sample.plotting Sample.str Sample.table
              (λ _, eq_refl) eq_refl eq_refl eq_refl) as [Hw _].
  eexists. split; [|exact Hw]. vm_compute. reflexivity.
Defined.

(** The sample table with a failing bar chart: the renderer returns and
    the LED warning is not among what it shows. *)
Lemma led_warning_never_shown_witness :
  loaded Sample.serving Sample.to_datetime Sample.str Sample.table
  ∧ empty Sample.table = false
  ∧ ∃ w' views,
      run (show_filtered_data Sample.bar_fails Sample.str Sample.table) Sample.first_run
        = (Return (), w')
      ∧ log w' = log Sample.first_run ++ views
      ∧ Forall (λ e, e ≠ St (StWarning "The column 'LED Brightness' is missing from the data."))
          views.
Proof.
  split; [exact sample_table_loaded|]. split; [reflexivity|].
  exact (led_warning_never_shown Sample.serving Sample.to_datetime Sample.bar_fails
           Sample.str Sample.table Sample.first_run sample_table_loaded eq_refl).
Defined.

(** The first run on the sample feed with working plots: twenty-five
    events after the load, none of them a failure message. *)
Lemma pass_without_failure_witness :
  let w := Sample.first_run in
  let w1 := Sample.with_fetch w in
  (∀ e, Sample.plotting e = None)
  ∧ cache_ok Sample.serving Sample.to_datetime Sample.str w
  ∧ run (load_data Sample.serving Sample.to_datetime Sample.str) w
    = (Return Sample.table, w1)
  ∧ empty Sample.table = false
  ∧ empty (rows_in_range Sample.table 19723 19725) = false
  ∧ ∃ shown,
      run (main Sample.serving Sample.to_datetime Sample.plotting Sample.str) w
      = (Return (), add_log shown (set_session (kept_range 19723 19725) w1))
      ∧ length shown = 25%nat
      ∧ Forall (λ e, is_st_error e = false) shown.
Proof.
  intros w w1.
  assert (cache_ok Sample.serving Sample.to_datetime Sample.str w) as Hok
    by (by apply first_run_cache_ok).
  assert (run (load_data Sample.serving Sample.to_datetime Sample.str) w
          = (Return Sample.table, w1)) as Hload by (vm_compute; reflexivity).
  split; [by intros e|]. split; [exact Hok|]. split; [exact Hload|].
  split; [reflexivity|]. split; [reflexivity|].
  pose proof (pass_without_failure Sample.serving Sample.to_datetime Sample.plotting
                Sample.str w Sample.table w1 (λ _, eq_refl) Hok Hload eq_refl eq_refl)
    as Hmain.
  cbv zeta in Hmain.
  eexists. split; [exact Hmain|]. split; [reflexivity|]. by repeat constructor.
Defined.

(** The panels on the empty frame: the figure is opened and the message
    names the key [Timestamp]. *)
Lemma panels_without_time_column_witness :
  has_column empty_frame "Timestamp" = false
  ∧ writes (show_temp_humidity Sample.plotting Sample.str empty_frame) (Return ())
      [St (StSubheader "Temperature and Humidity Over Time"); Lib PltFigure;
       St (StError "Error plotting Temperature and Humidity: 'Timestamp'")].
Proof.
  split; [reflexivity|].
  exact (proj1 (panels_without_time_column Sample.plotting Sample.str empty_frame eq_refl)).
Defined.

(** A feed of two readings whose times do not parse: a table with the
    eight columns and no row. *)
Lemma unparsed_feed_is_no_data_witness :
  Sample.serving_unparsed spreadsheet_url (now Sample.first_run)
    = Return Sample.feed_unparsed
  ∧ missing_columns Sample.feed_unparsed = []
  ∧ (∀ r, r ∈ rows Sample.feed_unparsed →
          Sample.to_datetime (column Sample.feed_unparsed "Timestamp")
            (at_col "Timestamp" r) = None)
  ∧ (∀ e, Sample.plotting e = None)
  ∧ ∃ table,
      run (load_data_body Sample.serving_unparsed Sample.to_datetime Sample.str)
        Sample.first_run
      = (Return table, add_log [Lib (PdReadCsv spreadsheet_url)] Sample.first_run)
      ∧ columns table = required_columns
      ∧ rows table = []
      ∧ empty table = true.
Proof.
  assert (∀ r, r ∈ rows Sample.feed_unparsed →
               Sample.to_datetime (column Sample.feed_unparsed "Timestamp")
                 (at_col "Timestamp" r) = None) as Hnone.
  { intros r Hr. cbn [Sample.feed_unparsed rows] in Hr.
    repeat (apply elem_of_cons in Hr as [->|Hr]; [reflexivity|]).
    by apply elem_of_nil in Hr. }
  split; [reflexivity|]. split; [reflexivity|]. split; [exact Hnone|].
  split; [by intros e|].
  destruct (unparsed_feed_is_no_data Sample.serving_unparsed Sample.to_datetime
              Sample.plotting Sample.str Sample.first_run Sample.feed_unparsed
              eq_refl eq_refl Hnone (λ _, eq_refl))
    as (table & Hrun & Hcols & Hrows & _).
  exists table. split; [exact Hrun|]. split; [exact Hcols|]. split; [exact Hrows|].
  unfold empty. rewrite Hrows. rewrite (bool_decide_eq_true_2 ([] = [])) by done.
  apply orb_true_r.
Defined.
